(** * B3 propagation format: extract / inject

    A shallow embedding of
    [opentelemetry-sdk/src/opentelemetry/sdk/trace/propagation/b3_format.py]
    and the properties of its two operations.

    A Python [str] is a sequence of Unicode code points: header names and
    values are lists of code points, [list N].  Identifiers are Python
    [int]s that are never negative: [N]. *)

From stdpp Require Import base numbers list gmap.
From Stdlib.Strings Require Import Byte.

Set Warnings "-via-type-mismatch,-via-type-remapping".

Local Open Scope N_scope.

(** ** Strings *)

Abbreviation str := (list N).

(** Quoted text stands for the list of its code points; only ASCII text
    can be quoted. *)
Inductive literal :=
| LNil
| LCons (c : N) (s : literal).

Fixpoint literal_of_bytes (l : list byte) : option literal :=
  match l with
  | [] => Some LNil
  | b :: l' =>
      match literal_of_bytes l' with
      | Some s => if Byte.to_N b <? 128 then Some (LCons (Byte.to_N b) s) else None
      | None => None
      end
  end.

Fixpoint bytes_of_literal (s : literal) : option (list byte) :=
  match s with
  | LNil => Some []
  | LCons c s' =>
      match Byte.of_N c, bytes_of_literal s' with
      | Some b, Some l => Some (b :: l)
      | _, _ => None
      end
  end.

(** The type the literals are read at. *)
Definition code_points : Type := list N.

Declare Scope str_scope.
Delimit Scope str_scope with str.
String Notation code_points literal_of_bytes bytes_of_literal
  (via literal mapping [[nil] => LNil, [cons] => LCons]) : str_scope.
Local Open Scope str_scope.

(** ** Python built-ins used by the module *)

Module Py.

(** [ord(s)] for a string of one character. *)
Definition ord (s : str) : N :=
  match s with
  | c :: _ => c
  | [] => 0
  end.

(** [a == b] on strings. *)
Fixpoint eqb (a b : str) : bool :=
  match a, b with
  | [], [] => true
  | x :: a', y :: b' => (x =? y) && eqb a' b'
  | _, _ => false
  end.

(** Truthiness of an [Optional[str]]: [None] and the empty string are
    falsy. *)
Definition truthy (x : option str) : bool :=
  match x with
  | Some (_ :: _) => true
  | _ => false
  end.

(** [x or d] where [x : Optional[str]] and [d : str]. *)
Definition or_str (x : option str) (d : str) : str :=
  match x with
  | Some ((_ :: _) as v) => v
  | _ => d
  end.

(** [x or d] where both sides are [Optional[str]]. *)
Definition or_opt (x d : option str) : option str :=
  match x with
  | Some (_ :: _) => x
  | _ => d
  end.

(** [s.split(sep, maxsplit)] for a one-character separator: at most
    [maxsplit] cuts, from the left; what is left over is the last field. *)
Fixpoint split (sep : N) (maxsplit : nat) (s : str) : list str :=
  match s with
  | [] => [[]]
  | c :: s' =>
      match maxsplit with
      | O => [s]
      | S m =>
          if c =? sep then [] :: split sep m s'
          else match split sep maxsplit s' with
               | f :: fs => (c :: f) :: fs
               | [] => [[c]]
               end
      end
  end.

(** The digit [d < 16] in lower case, as the ["x"] presentation type
    prints it. *)
Definition hex_char (d : N) : N :=
  if d <? 10 then 48 + d else 87 + d.

(** The [w] low hexadecimal digits of [n], most significant first, in
    front of [acc]. *)
Fixpoint hex_fixed (w : nat) (n : N) (acc : str) : str :=
  match w with
  | O => acc
  | S w' => hex_fixed w' (n / 16) (hex_char (n mod 16) :: acc)
  end.

(** Number of hexadecimal digits of [n] (0 for 0). *)
Definition hex_width (n : N) : nat := N.to_nat ((N.size n + 3) / 4).

(** [format(n, "0<w>x")]: lower-case hexadecimal, zero-padded on the left
    to at least [w] characters, and never truncated. *)
Definition format_0x (w : nat) (n : N) : str :=
  hex_fixed (Nat.max w (Nat.max 1 (hex_width n))) n [].

(** The decimal digits of the Unicode character database of the
    interpreter (general category Nd; Unicode 14.0, as in CPython 3.11):
    every one of them belongs to a run of ten consecutive code points with
    the values 0 to 9; the list holds the digit zero of each of the 66
    runs, the first being the ASCII digits. *)
Definition decimal_zeros : list N :=
  [48; 1632; 1776; 1984; 2406; 2534; 2662; 2790; 2918; 3046; 3174; 3302;
   3430; 3558; 3664; 3792; 3872; 4160; 4240; 6112; 6160; 6470; 6608; 6784;
   6800; 6992; 7088; 7232; 7248; 42528; 43216; 43264; 43472; 43504; 43600;
   44016; 65296; 66720; 68912; 69734; 69872; 69942; 70096; 70384; 70736;
   70864; 71248; 71360; 71472; 71904; 72016; 72784; 73040; 73120; 92768;
   92864; 93008; 120782; 120792; 120802; 120812; 120822; 123200; 123632;
   125264; 130032].

(** [unicodedata.decimal(chr(c), None)]: the value of a decimal digit. *)
Definition decimal (c : N) : option N :=
  match find (fun z => (z <=? c) && (c <? z + 10)) decimal_zeros with
  | Some z => Some (c - z)
  | None => None
  end.

(** Value of one base-16 digit as [int] reads it: a decimal digit of any
    script, or a letter a-f in either case. *)
Definition hex_value (c : N) : option N :=
  match decimal c with
  | Some d => Some d
  | None =>
      if (97 <=? c) && (c <=? 102) then Some (c - 87)
      else if (65 <=? c) && (c <=? 70) then Some (c - 55)
      else None
  end.

Fixpoint int_digits (acc : N) (s : str) : option N :=
  match s with
  | [] => Some acc
  | c :: s' =>
      match hex_value c with
      | Some d => int_digits (acc * 16 + d) s'
      | None => None
      end
  end.

(** [int(s, 16)] on a string of digits; [None] stands for [ValueError].
    (Signs, prefixes, blanks and underscores, which [int] also reads, never
    get past the validation in front of the two calls.) *)
Definition int16 (s : str) : option N :=
  match s with
  | [] => None
  | _ => int_digits 0 s
  end.

End Py.

(** ** The fragment of [re] the two patterns use *)

Module Re.

(** One item of a bracket expression. *)
Inductive item :=
| Digit                  (* \d *)
| Range (lo hi : N).     (* lo-hi *)

Inductive regex :=
| Class (items : list item)      (* [...] *)
| Repeat (r : regex) (n : nat)   (* r{n} *)
| Alt (r1 r2 : regex).           (* r1|r2 *)

(** In a [str] pattern [\d] matches every Unicode decimal digit; a range
    matches the code points between its ends. *)
Definition item_matches (c : N) (i : item) : bool :=
  match i with
  | Digit => match Py.decimal c with Some _ => true | None => false end
  | Range lo hi => (lo <=? c) && (c <=? hi)
  end.

Definition class_matches (items : list item) (c : N) : bool :=
  existsb (item_matches c) items.

(** Backtracking matcher: [run r s k] tries to match a prefix of [s]
    against [r] and hands the rest to the continuation [k]; alternatives
    are tried left to right. *)
Fixpoint run (r : regex) : str -> (str -> bool) -> bool :=
  match r with
  | Class items => fun s k =>
      match s with
      | c :: s' => class_matches items c && k s'
      | [] => false
      end
  | Repeat r' n => fun s k => Nat.iter n (fun k' s' => run r' s' k') k s
  | Alt r1 r2 => fun s k => run r1 s k || run r2 s k
  end.

(** [pattern.fullmatch(s) is not None]: the whole string must be used
    up. *)
Definition fullmatch (r : regex) (s : str) : bool :=
  run r s (fun rest => match rest with [] => true | _ => false end).

End Re.



(** ** The API package, [opentelemetry.trace] *)

Module trace.

(** Modelled from the spec: [INVALID_TRACE_ID] is declared in the API
    package, which is not part of the sources at hand; the sentinel is the
    all-zero value. *)
Definition INVALID_TRACE_ID : N := 0.

(** Modelled from the spec: [INVALID_SPAN_ID], declared in the API package;
    the same all-zero convention. *)
Definition INVALID_SPAN_ID : N := 0.

(** Modelled from the spec: [TraceFlags.SAMPLED], declared in the API
    package; the sampled bit of the flags. *)
Definition SAMPLED : N := 1.

(** Modelled from the spec: the [SpanContext] value type of the API
    package, with the fields the spec lists. *)
Record SpanContext := {
  trace_id : N;
  span_id : N;
  is_remote : bool;
  trace_flags : N;
  trace_state : list (str * str)
}.

(** The sampled flag of a context: the sampled bit of its flags. *)
Definition sampled (c : SpanContext) : bool :=
  negb (N.land SAMPLED (trace_flags c) =? 0).

(** Modelled from the spec: [INVALID_SPAN_CONTEXT], declared in the API
    package; both identifiers are the sentinel and the sampled flag is
    unset. *)
Definition INVALID_SPAN_CONTEXT : SpanContext :=
  {| trace_id := INVALID_TRACE_ID; span_id := INVALID_SPAN_ID;
     is_remote := false; trace_flags := 0; trace_state := [] |}.

(** Modelled from the spec: the comparison [ctx == INVALID_SPAN_CONTEXT],
    whose [__eq__] belongs to the API package; a context equals the invalid
    sentinel when its trace_id is 0 and its span_id is 0. *)
Definition is_invalid (c : SpanContext) : bool :=
  (trace_id c =? INVALID_TRACE_ID) && (span_id c =? INVALID_SPAN_ID).

(** A span as far as the propagator looks at it: its own context and its
    parent's, if it has one. *)
Record Span := {
  get_context : SpanContext;
  parent : option SpanContext
}.

(** Modelled from the spec: [DefaultSpan], declared in the API package; it
    wraps a context and has no parent. *)
Definition DefaultSpan (c : SpanContext) : Span :=
  {| get_context := c; parent := None |}.

(** Modelled from the spec: [INVALID_SPAN], declared in the API package;
    the span wrapping the invalid sentinel. *)
Definition INVALID_SPAN : Span := DefaultSpan INVALID_SPAN_CONTEXT.

(** A [Context] as far as the propagator is concerned: the span it holds. *)
Definition Context := Span.

(** Modelled from the spec: [set_span_in_context], declared in the API
    package; a context wrapping the span. *)
Definition set_span_in_context (s : Span) : Context := s.

(** Modelled from the spec: [get_current_span], declared in the API
    package; the active span of a context. *)
Definition get_current_span (c : Context) : Span := c.

End trace.

(** ** Calls to the collaborators *)

(** What a call of [extract] or [inject] does to the outside: the calls it
    makes to the getter, the setter and the identifier generator, in
    order. *)
Inductive Call :=
| CallGetter (key : str)
| CallSetter (key value : str)
| CallGenerateTraceId
| CallGenerateSpanId.

(** The state of the outside world: the generator's and the calls made so
    far. *)
Record World (G : Type) := mkWorld {
  generator : G;
  calls : list Call
}.
Arguments mkWorld {G} _ _.
Arguments generator {G} _.
Arguments calls {G} _.

(** How a call ends: with a value or with a [ValueError]. *)
Inductive Outcome (A : Type) :=
| Returned (a : A)
| ValueError.
Arguments Returned {A} _.
Arguments ValueError {A}.

Definition M (G A : Type) : Type := World G -> Outcome A * World G.

#[export] Instance M_ret {G} : MRet (M G) := fun A a w => (Returned a, w).

#[export] Instance M_bind {G} : MBind (M G) := fun A B f m w =>
  match m w with
  | (Returned a, w') => f a w'
  | (ValueError, w') => (ValueError, w')
  end.

Definition record {G} (c : Call) : M G unit :=
  fun w => (Returned tt, mkWorld (generator w) (calls w ++ [c])).

Definition raise_unless {G A} (x : option A) : M G A :=
  fun w => match x with Some a => (Returned a, w) | None => (ValueError, w) end.

(** ** The module [b3_format] *)

(** [format_trace_id]: [format(trace_id, "032x")]. *)
Definition format_trace_id (trace_id : N) : str := Py.format_0x 32 trace_id.

(** [format_span_id]: [format(span_id, "016x")]. *)
Definition format_span_id (span_id : N) : str := Py.format_0x 16 span_id.

(** [_extract_first_element]: [None] for [None], otherwise
    [next(iter(items), None)]. *)
Definition _extract_first_element (items : option (list str)) : option str :=
  match items with
  | None => None
  | Some l => head l
  end.

Module B3Format.

Definition SINGLE_HEADER_KEY : str := "b3".
Definition TRACE_ID_KEY : str := "x-b3-traceid".
Definition SPAN_ID_KEY : str := "x-b3-spanid".
Definition PARENT_SPAN_ID_KEY : str := "x-b3-parentspanid".
Definition SAMPLED_KEY : str := "x-b3-sampled".
Definition FLAGS_KEY : str := "x-b3-flags".

Definition _SAMPLE_PROPAGATE_VALUES : list str := ["1"; "True"; "true"; "d"].

(** [[\da-fA-F]] *)
Definition hex_class : Re.regex :=
  Re.Class [Re.Digit; Re.Range (Py.ord "a") (Py.ord "f");
            Re.Range (Py.ord "A") (Py.ord "F")].

(** [[\da-fA-F]{16}|[\da-fA-F]{32}] *)
Definition _trace_id_regex : Re.regex :=
  Re.Alt (Re.Repeat hex_class 16) (Re.Repeat hex_class 32).

(** [[\da-fA-F]{16}] *)
Definition _span_id_regex : Re.regex := Re.Repeat hex_class 16.

(** [sampled in _SAMPLE_PROPAGATE_VALUES] *)
Definition propagates (sampled : str) : bool :=
  existsb (Py.eqb sampled) _SAMPLE_PROPAGATE_VALUES.

(** [flags == "1"] *)
Definition flags_set (flags : option str) : bool :=
  match flags with
  | Some f => Py.eqb f "1"
  | None => false
  end.

Section Propagator.

(** The carrier type and the state of the identifier generator. *)
Context {Carrier G : Type}.

(** The [Getter]: the values under a key, or [None]. *)
Variable get_from_carrier : Carrier -> str -> option (list str).

(** The [Setter]: the carrier after the value has been put under the key. *)
Variable set_in_carrier : Carrier -> str -> str -> Carrier.

(** [generate_trace_id] and [generate_span_id] of [opentelemetry.sdk.trace]:
    an identifier and the generator's next state. *)
Variable generate_trace_id : G -> N * G.
Variable generate_span_id : G -> N * G.

Definition getter (carrier : Carrier) (key : str) : M G (option (list str)) :=
  _ ← record (CallGetter key); mret (get_from_carrier carrier key).

Definition setter (carrier : Carrier) (key value : str) : M G Carrier :=
  _ ← record (CallSetter key value); mret (set_in_carrier carrier key value).

Definition new_trace_id : M G N :=
  fun w => let (i, g) := generate_trace_id (generator w) in
           (Returned i, mkWorld g (calls w ++ [CallGenerateTraceId])).

Definition new_span_id : M G N :=
  fun w => let (i, g) := generate_span_id (generator w) in
           (Returned i, mkWorld g (calls w ++ [CallGenerateSpanId])).

(** Lines 51-100 of [extract]: the trace id, span id, sampled and flags
    strings the headers resolve to, or [None] where line 75 returns. *)
Definition read_headers (carrier : Carrier)
  : M G (option (str * str * str * option str)) :=
  let trace_id := format_trace_id trace.INVALID_TRACE_ID in
  let span_id := format_span_id trace.INVALID_SPAN_ID in
  let sampled := "0" in
  let flags : option str := None in
  items ← getter carrier SINGLE_HEADER_KEY;
  match _extract_first_element items with
  | Some ((_ :: _) as single_header) =>
      let sampled := "1" in
      let fields := Py.split (Py.ord "-") 4 single_header in
      match fields with
      | [f0] => mret (Some (trace_id, span_id, f0, flags))
      | [f0; f1] => mret (Some (f0, f1, sampled, flags))
      | [f0; f1; f2] => mret (Some (f0, f1, f2, flags))
      | [f0; f1; f2; _] => mret (Some (f0, f1, f2, flags))
      | _ => mret None
      end
  | _ =>
      items ← getter carrier TRACE_ID_KEY;
      let trace_id := Py.or_str (_extract_first_element items) trace_id in
      items ← getter carrier SPAN_ID_KEY;
      let span_id := Py.or_str (_extract_first_element items) span_id in
      items ← getter carrier SAMPLED_KEY;
      let sampled := Py.or_str (_extract_first_element items) sampled in
      items ← getter carrier FLAGS_KEY;
      let flags := Py.or_opt (_extract_first_element items) flags in
      mret (Some (trace_id, span_id, sampled, flags))
  end.

(** [B3Format.extract] *)
Definition extract (carrier : Carrier) : M G trace.Context :=
  headers ← read_headers carrier;
  match headers with
  | None => mret (trace.set_span_in_context trace.INVALID_SPAN)
  | Some (trace_id, span_id, sampled, flags) =>
      '(trace_id, span_id, sampled) ←
        (if negb (Re.fullmatch _trace_id_regex trace_id)
            || negb (Re.fullmatch _span_id_regex span_id)
         then
           trace_id ← new_trace_id;
           span_id ← new_span_id;
           mret (trace_id, span_id, "0")
         else
           trace_id ← raise_unless (Py.int16 trace_id);
           span_id ← raise_unless (Py.int16 span_id);
           mret (trace_id, span_id, sampled));
      let options := 0 in
      let options :=
        if propagates sampled || flags_set flags
        then N.lor options trace.SAMPLED else options in
      mret (trace.set_span_in_context
              (trace.DefaultSpan
                 {| trace.trace_id := trace_id;
                    trace.span_id := span_id;
                    trace.is_remote := true;
                    trace.trace_flags := options;
                    trace.trace_state := [] |}))
  end.

(** [B3Format.inject]; the result is the carrier after the writes. *)
Definition inject (carrier : Carrier) (context : trace.Context) : M G Carrier :=
  let span := trace.get_current_span context in
  if trace.is_invalid (trace.get_context span) then mret carrier
  else
    let sampled :=
      negb (N.land trace.SAMPLED (trace.trace_flags (trace.get_context span)) =? 0) in
    carrier ← setter carrier TRACE_ID_KEY
                (format_trace_id (trace.trace_id (trace.get_context span)));
    carrier ← setter carrier SPAN_ID_KEY
                (format_span_id (trace.span_id (trace.get_context span)));
    carrier ← match trace.parent span with
              | Some p => setter carrier PARENT_SPAN_ID_KEY
                            (format_span_id (trace.span_id p))
              | None => mret carrier
              end;
    setter carrier SAMPLED_KEY (if sampled then "1" else "0").

End Propagator.

End B3Format.

(** ** A carrier and a generator to run the propagator on *)

(** Headers as a dictionary from a name to the values sent under it (a
    header may repeat); the getter is the plain lookup and the setter
    replaces what is stored under the name. *)
Module HeaderDict.

Abbreviation t := (gmap str (list str)).

Definition get (carrier : t) (key : str) : option (list str) :=
  carrier !! key.

Definition set (carrier : t) (key value : str) : t :=
  <[key := [value]]> carrier.

End HeaderDict.

(** A generator that hands out 1, 2, 3, ...; its state is the last
    identifier it gave. *)
Module SeqIds.

Definition generate_trace_id (last : N) : N * N := (last + 1, last + 1).
Definition generate_span_id (last : N) : N * N := (last + 1, last + 1).

End SeqIds.

(** ** Vocabulary of the statements *)

(** Spec wording: a hex digit. *)
Definition is_hex_digit (c : N) : bool :=
  existsb (N.eqb c) "0123456789abcdefABCDEF".

(** Spec wording: the string is entirely hex digits. *)
Definition all_hex (s : str) : bool :=
  forallb is_hex_digit s.

(** Spec wording of [validate_trace_id]. *)
Definition validate_trace_id (s : str) : bool :=
  all_hex s && ((length s =? 16)%nat || (length s =? 32)%nat).

(** Spec wording of [validate_span_id]. *)
Definition validate_span_id (s : str) : bool :=
  all_hex s && (length s =? 16)%nat.

(** A character the two patterns accept: a decimal digit of any script, or
    a letter a-f in either case. *)
Definition is_hex_char (c : N) : bool :=
  match Py.decimal c with
  | Some _ => true
  | None => existsb (N.eqb c) "abcdefABCDEF"
  end.

(** A string of such characters. *)
Definition all_hex_chars (s : str) : bool := forallb is_hex_char s.

(** What the trace id pattern accepts: such characters only, 16 or 32 of
    them. *)
Definition accepts_trace_id (s : str) : bool :=
  all_hex_chars s && ((length s =? 16)%nat || (length s =? 32)%nat).

(** What the span id pattern accepts: such characters only, 16 of them. *)
Definition accepts_span_id (s : str) : bool :=
  all_hex_chars s && (length s =? 16)%nat.

(** Sixteen times the Arabic-Indic digit one, U+0661. *)
Definition arabic_indic_ones : str := repeat 1633 16.

(** The rest of [s] after [n] characters of the class, if it starts with
    that many. *)
Fixpoint take_class (items : list Re.item) (n : nat) (s : str) : option str :=
  match n with
  | O => Some s
  | S n' =>
      match s with
      | c :: s' => if Re.class_matches items c then take_class items n' s' else None
      | [] => None
      end
  end.

(** The first value the getter yields under a key. *)
Definition first_value {Carrier : Type}
    (get_from_carrier : Carrier -> str -> option (list str))
    (carrier : Carrier) (key : str) : option str :=
  _extract_first_element (get_from_carrier carrier key).

(** The world after some more calls. *)
Definition logged {G : Type} (w : World G) (l : list Call) : World G :=
  mkWorld (generator w) (calls w ++ l).

(** The context [extract] builds at lines 122-133. *)
Definition remote_span (trace_id span_id options : N) : trace.Context :=
  trace.set_span_in_context
    (trace.DefaultSpan
       {| trace.trace_id := trace_id; trace.span_id := span_id;
          trace.is_remote := true; trace.trace_flags := options;
          trace.trace_state := [] |}).

(** The flags computed at lines 114-120 from the sampled and flags
    strings. *)
Definition options_of (sampled : str) (flags : option str) : N :=
  if B3Format.propagates sampled || B3Format.flags_set flags
  then N.lor 0 trace.SAMPLED else 0.

(** The getter of a carrier stripped of its combined header. *)
Definition without_single_header {Carrier : Type}
    (get_from_carrier : Carrier -> str -> option (list str))
    : Carrier -> str -> option (list str) :=
  fun carrier key =>
    if Py.eqb key B3Format.SINGLE_HEADER_KEY then None
    else get_from_carrier carrier key.

(** The carrier after the setter calls of a list of calls, in order. *)
Definition apply_writes {Carrier : Type}
    (set_in_carrier : Carrier -> str -> str -> Carrier)
    (carrier : Carrier) (l : list Call) : Carrier :=
  fold_left (fun c call =>
               match call with
               | CallSetter key value => set_in_carrier c key value
               | _ => c
               end) l carrier.

(** The setter calls [inject] makes for a span that is not the sentinel. *)
Definition header_writes (span : trace.Span) : list Call :=
  [CallSetter B3Format.TRACE_ID_KEY
     (format_trace_id (trace.trace_id (trace.get_context span)));
   CallSetter B3Format.SPAN_ID_KEY
     (format_span_id (trace.span_id (trace.get_context span)))]
  ++ match trace.parent span with
     | Some p => [CallSetter B3Format.PARENT_SPAN_ID_KEY
                    (format_span_id (trace.span_id p))]
     | None => []
     end
  ++ [CallSetter B3Format.SAMPLED_KEY
        (if trace.sampled (trace.get_context span) then "1" else "0")].

(** A call to the identifier generator. *)
Definition is_generator_call (c : Call) : Prop :=
  c = CallGenerateTraceId \/ c = CallGenerateSpanId.

(** The sampled indicator as line 119 finds it: what the headers resolved
    to when both identifiers passed the validation, ["0"] when line 108
    reset it. *)
Definition sampled_indicator (trace_id span_id sampled : str) : str :=
  if Re.fullmatch B3Format._trace_id_regex trace_id
     && Re.fullmatch B3Format._span_id_regex span_id
  then sampled else "0".

(** The combined header has a non-empty first value whose field count is
    none of 1, 2, 3, 4. *)
Definition malformed_single_header {Carrier : Type}
    (get_from_carrier : Carrier -> str -> option (list str))
    (carrier : Carrier) : Prop :=
  exists h, first_value get_from_carrier carrier B3Format.SINGLE_HEADER_KEY = Some h
            /\ h <> []
            /\ ~ In (length (Py.split (Py.ord "-") 4 h)) [1; 2; 3; 4]%nat.

(** A value of the carrier: the first value under some key, or one of the
    fields such a value splits into. *)
Definition carrier_value {Carrier : Type}
    (get_from_carrier : Carrier -> str -> option (list str))
    (carrier : Carrier) (v : str) : Prop :=
  exists key h, first_value get_from_carrier carrier key = Some h
                /\ In v (h :: Py.split (Py.ord "-") 4 h).

(** The identifiers of the context are the base-16 values of two
    regex-conformant values of the carrier. *)
Definition ids_decoded_from_carrier {Carrier : Type}
    (get_from_carrier : Carrier -> str -> option (list str))
    (carrier : Carrier) (c : trace.SpanContext) : Prop :=
  exists t s,
    carrier_value get_from_carrier carrier t /\
    carrier_value get_from_carrier carrier s /\
    Re.fullmatch B3Format._trace_id_regex t = true /\
    Re.fullmatch B3Format._span_id_regex s = true /\
    Py.int16 t = Some (trace.trace_id c) /\
    Py.int16 s = Some (trace.span_id c).

(** The pair the generator yields from the state [g]. *)
Definition fresh_pair {G : Type} (generate_trace_id generate_span_id : G -> N * G)
    (g : G) (c : trace.SpanContext) : Prop :=
  trace.trace_id c = (generate_trace_id g).1 /\
  trace.span_id c = (generate_span_id (generate_trace_id g).2).1.

(** A freshly generated or sentinel pair that is not sampled. *)
Definition fresh_or_sentinel_unsampled {G : Type}
    (generate_trace_id generate_span_id : G -> N * G)
    (g : G) (c : trace.SpanContext) : Prop :=
  (fresh_pair generate_trace_id generate_span_id g c
   \/ (trace.trace_id c = 0 /\ trace.span_id c = 0))
  /\ trace.sampled c = false.

(** What the spec's invariant asks of [extract] on one carrier, at its
    weakest: the first alternative without its clause on the sampled flag,
    and "one of" for "exactly one of". *)
Definition origin_as_stated {Carrier G : Type}
    (get_from_carrier : Carrier -> str -> option (list str))
    (generate_trace_id generate_span_id : G -> N * G)
    (carrier : Carrier) (w : World G) : Prop :=
  exists ctx w',
    B3Format.extract get_from_carrier generate_trace_id generate_span_id carrier w
      = (Returned ctx, w') /\
    (ids_decoded_from_carrier get_from_carrier carrier (trace.get_context ctx)
     \/ fresh_or_sentinel_unsampled generate_trace_id generate_span_id
          (generator w) (trace.get_context ctx)).

(** The three origins a context of [extract] can have. *)

(** Decoded: the identifier strings the headers resolve to, each a value
    of the carrier or the all-zero default, both pass the validation; the
    identifiers are their base-16 values and the sampled flag is the one
    the sampled and flags strings give. *)
Definition origin_decoded {Carrier G : Type}
    (get_from_carrier : Carrier -> str -> option (list str))
    (carrier : Carrier) (w : World G) (c : trace.SpanContext) : Prop :=
  exists t s sa fl w1,
    B3Format.read_headers get_from_carrier carrier w
      = (Returned (Some (t, s, sa, fl)), w1) /\
    (t = format_trace_id 0 \/ carrier_value get_from_carrier carrier t) /\
    (s = format_span_id 0 \/ carrier_value get_from_carrier carrier s) /\
    Re.fullmatch B3Format._trace_id_regex t = true /\
    Re.fullmatch B3Format._span_id_regex s = true /\
    Py.int16 t = Some (trace.trace_id c) /\
    Py.int16 s = Some (trace.span_id c) /\
    trace.sampled c = B3Format.propagates sa || B3Format.flags_set fl.

(** Generated: one of the identifier strings fails the validation; the
    identifiers are fresh, and the context is not sampled unless the flags
    string is "1" (nothing is said of that case). *)
Definition origin_generated {Carrier G : Type}
    (get_from_carrier : Carrier -> str -> option (list str))
    (generate_trace_id generate_span_id : G -> N * G)
    (carrier : Carrier) (w : World G) (c : trace.SpanContext) : Prop :=
  exists t s sa fl w1,
    B3Format.read_headers get_from_carrier carrier w
      = (Returned (Some (t, s, sa, fl)), w1) /\
    Re.fullmatch B3Format._trace_id_regex t
      && Re.fullmatch B3Format._span_id_regex s = false /\
    fresh_pair generate_trace_id generate_span_id (generator w) c /\
    (fl = Some "1" \/ trace.sampled c = false).

(** Sentinel: the combined header is malformed; the context is the invalid
    sentinel, not sampled. *)
Definition origin_sentinel {Carrier : Type}
    (get_from_carrier : Carrier -> str -> option (list str))
    (carrier : Carrier) (c : trace.SpanContext) : Prop :=
  malformed_single_header get_from_carrier carrier /\
  c = trace.INVALID_SPAN_CONTEXT /\
  trace.sampled c = false.

(** ** Carriers of the examples *)

(** Only a sampled header. *)
Definition carrier_sampled_only : HeaderDict.t :=
  {[ "x-b3-sampled" := ["1"] ]}.

(** A trace id that is not hexadecimal, a well-formed span id and the debug
    flag. *)
Definition carrier_bad_trace_id_debug : HeaderDict.t :=
  <["x-b3-traceid" := ["nothex"]]>
    (<["x-b3-spanid" := ["0123456789abcdef"]]>
       (<["x-b3-flags" := ["1"]]> ∅)).

(** A combined header of five fields. *)
Definition carrier_malformed : HeaderDict.t :=
  {[ "b3" := ["a-b-c-d-e"] ]}.

(** Both encodings at once, with different identifiers. *)
Definition carrier_both_encodings : HeaderDict.t :=
  <["b3" := ["80f198ee56343ba864fe8b2a57d3eff7-e457b5a2e4d86bd1-1"]]>
    (<["x-b3-traceid" := ["463ac35c9f6413ad48485a3953bb6124"]]>
       (<["x-b3-spanid" := ["a2fb4a1d1a96d312"]]>
          (<["x-b3-sampled" := ["0"]]>
             (<["x-b3-flags" := ["1"]]> ∅)))).

(** Well-formed 16-digit identifiers, no sampled header, the debug flag. *)
Definition carrier_debug_flag : HeaderDict.t :=
  <["x-b3-traceid" := ["a2fb4a1d1a96d312"]]>
    (<["x-b3-spanid" := ["0123456789abcdef"]]>
       (<["x-b3-flags" := ["1"]]> ∅)).

(** An empty combined header next to discrete headers. *)
Definition carrier_empty_single_header : HeaderDict.t :=
  <["b3" := [""]]>
    (<["x-b3-traceid" := ["463ac35c9f6413ad48485a3953bb6124"]]>
       (<["x-b3-spanid" := ["a2fb4a1d1a96d312"]]>
          (<["x-b3-sampled" := ["true"]]> ∅))).

(** A sampled context with well-formed identifiers, and a span of it with
    a parent. *)
Definition context_sampled : trace.SpanContext :=
  {| trace.trace_id := 93351075330931896558786731617803788580;
     trace.span_id := 11743661784588276498;
     trace.is_remote := false;
     trace.trace_flags := 1;
     trace.trace_state := [] |}.

Definition span_with_parent : trace.Span :=
  {| trace.get_context := context_sampled;
     trace.parent :=
       Some {| trace.trace_id := 93351075330931896558786731617803788580;
               trace.span_id := 81985529216486895;
               trace.is_remote := false;
               trace.trace_flags := 1;
               trace.trace_state := [] |} |}.

(** ** Vocabulary of the further properties *)

(** How often a character occurs in a string. *)
Fixpoint count_char (c : N) (s : str) : nat :=
  match s with
  | [] => O
  | a :: s' => ((if N.eqb a c then 1 else 0) + count_char c s')%nat
  end.

(** A lower-case hex digit, and a string of them. *)
Definition is_lower_hex_digit (c : N) : bool :=
  existsb (N.eqb c) "0123456789abcdef".

Definition all_lower_hex (s : str) : bool :=
  forallb is_lower_hex_digit s.

(** A parent span id and a debug flag left over from an earlier request. *)
Definition carrier_stale_flags : HeaderDict.t :=
  <["x-b3-flags" := ["1"]]> (<["x-b3-parentspanid" := ["ffffffffffffffff"]]> ∅).

(** A combined header of four fields. *)
Definition carrier_four_fields : HeaderDict.t :=
  {[ "b3" := ["80f198ee56343ba864fe8b2a57d3eff7-e457b5a2e4d86bd1-1-05e3ac9a4f6e3b90"] ]}.

(** The same without the parent span id. *)
Definition carrier_three_fields : HeaderDict.t :=
  {[ "b3" := ["80f198ee56343ba864fe8b2a57d3eff7-e457b5a2e4d86bd1-1"] ]}.

(** A combined header of two fields. *)
Definition carrier_two_fields : HeaderDict.t :=
  {[ "b3" := ["80f198ee56343ba864fe8b2a57d3eff7-e457b5a2e4d86bd1"] ]}.

(** A combined header that only carries a sampling decision. *)
Definition carrier_deny : HeaderDict.t := {[ "b3" := ["0"] ]}.

(** Headers that repeat. *)
Definition carrier_repeated : HeaderDict.t :=
  <["x-b3-traceid" := ["463ac35c9f6413ad48485a3953bb6124"; "nothex"]]>
    (<["x-b3-spanid" := ["a2fb4a1d1a96d312"; "0000000000000001"]]>
       (<["x-b3-sampled" := ["1"; "0"]]> ∅)).

(** The first values of [carrier_repeated] alone. *)
Definition carrier_first_values : HeaderDict.t :=
  <["x-b3-traceid" := ["463ac35c9f6413ad48485a3953bb6124"]]>
    (<["x-b3-spanid" := ["a2fb4a1d1a96d312"]]>
       (<["x-b3-sampled" := ["1"]]> ∅)).

(** Identifiers written with Arabic-Indic digits. *)
Definition carrier_arabic_indic : HeaderDict.t :=
  <["x-b3-traceid" := [arabic_indic_ones]]>
    (<["x-b3-spanid" := [arabic_indic_ones]]> ∅).

(** A sampled span without parent. *)
Definition span_without_parent : trace.Span :=
  {| trace.get_context := context_sampled; trace.parent := None |}.

(** * Properties *)

(** ** Built-ins *)

Example split_three : Py.split (Py.ord "-") 4 "a-b-c" = ["a"; "b"; "c"].
Proof. reflexivity. Qed.

Example split_caps_at_five :
  Py.split (Py.ord "-") 4 "a-b-c-d-e-f" = ["a"; "b"; "c"; "d"; "e-f"].
Proof. reflexivity. Qed.

Example split_trailing : Py.split (Py.ord "-") 4 "a-" = ["a"; ""].
Proof. reflexivity. Qed.

Example format_pads : Py.format_0x 16 255 = "00000000000000ff".
Proof. vm_compute. reflexivity. Qed.

Example format_grows : Py.format_0x 2 4095 = "fff".
Proof. vm_compute. reflexivity. Qed.

Example int16_mixed_case : Py.int16 "00fF" = Some 255.
Proof. reflexivity. Qed.

Example int16_arabic_indic : Py.int16 arabic_indic_ones = Some 1229782938247303441.
Proof. vm_compute. reflexivity. Qed.

Example decimal_thai_seven : Py.decimal 3671 = Some 7.
Proof. reflexivity. Qed.

Lemma eqb_eq a : forall b, Py.eqb a b = true <-> a = b.
Proof.
  induction a as [|x a IH]; intros [|y b]; simpl; try (split; [discriminate | congruence]).
  - tauto.
  - rewrite andb_true_iff, N.eqb_eq, IH. split; [intros [-> ->]; reflexivity | intros [= -> ->]; tauto].
Qed.

Lemma decimal_lt c d : Py.decimal c = Some d -> d < 10.
Proof.
  unfold Py.decimal.
  destruct (find _ Py.decimal_zeros) as [z|] eqn:F; [|discriminate].
  intros [= <-]. apply find_some in F as [_ F].
  apply andb_true_iff in F as [L U]. apply N.leb_le in L. apply N.ltb_lt in U. lia.
Qed.

(** ** The two patterns *)

Lemma run_repeat_class items n : forall s k,
  Re.run (Re.Repeat (Re.Class items) n) s k =
  match take_class items n s with
  | Some rest => k rest
  | None => false
  end.
Proof.
  induction n as [|n IH]; intros s k; [reflexivity|].
  change (Re.run (Re.Repeat (Re.Class items) (S n)) s k)
    with (Re.run (Re.Class items) s
            (fun s' => Re.run (Re.Repeat (Re.Class items) n) s' k)).
  destruct s as [|c s]; simpl; [reflexivity|].
  destruct (Re.class_matches items c); simpl; [apply IH | reflexivity].
Qed.

Lemma take_class_all items n : forall s,
  take_class items n s = Some [] <->
  length s = n /\ forallb (Re.class_matches items) s = true.
Proof.
  induction n as [|n IH]; intros [|c s]; simpl.
  - tauto.
  - split; [discriminate | intros [? _]; discriminate].
  - split; [discriminate | intros [? _]; discriminate].
  - destruct (Re.class_matches items c); simpl.
    + rewrite IH. split; intros [? ?]; split; congruence.
    + split; [discriminate | intros [_ ?]; discriminate].
Qed.

Lemma letter_range_members c :
  (97 <=? c) && (c <=? 102) || ((65 <=? c) && (c <=? 70) || false) =
  existsb (N.eqb c) "abcdefABCDEF".
Proof.
  cbn [existsb].
  destruct (N.leb_spec 97 c), (N.leb_spec c 102), (N.leb_spec 65 c), (N.leb_spec c 70);
    cbn [andb orb]; symmetry;
    first
      [ assert (E : c = 97 \/ c = 98 \/ c = 99 \/ c = 100 \/ c = 101 \/ c = 102
                    \/ c = 65 \/ c = 66 \/ c = 67 \/ c = 68 \/ c = 69 \/ c = 70) by lia;
        repeat (destruct E as [->|E]; [reflexivity|]); subst c; reflexivity
      | repeat match goal with
               | |- context [N.eqb c ?k] => destruct (N.eqb_spec c k); [lia|]
               end; reflexivity ].
Qed.

Lemma hex_class_is_hex_char c :
  Re.class_matches [Re.Digit; Re.Range (Py.ord "a") (Py.ord "f");
                    Re.Range (Py.ord "A") (Py.ord "F")] c = is_hex_char c.
Proof.
  unfold Re.class_matches, is_hex_char. cbn [existsb Re.item_matches Py.ord].
  destruct (Py.decimal c); [reflexivity|]. cbn [orb]. apply letter_range_members.
Qed.

Lemma forallb_hex_class l :
  forallb (Re.class_matches [Re.Digit; Re.Range (Py.ord "a") (Py.ord "f");
                             Re.Range (Py.ord "A") (Py.ord "F")]) l =
  forallb is_hex_char l.
Proof.
  induction l as [|c l IH]; [reflexivity|].
  cbn [forallb]. rewrite IH, hex_class_is_hex_char. reflexivity.
Qed.

Lemma fullmatch_repeat_hex n s :
  Re.fullmatch (Re.Repeat B3Format.hex_class n) s = true <->
  all_hex_chars s = true /\ length s = n.
Proof.
  unfold Re.fullmatch, B3Format.hex_class. rewrite run_repeat_class.
  unfold all_hex_chars. rewrite <- forallb_hex_class.
  split.
  - destruct (take_class _ n s) as [[|? ?]|] eqn:E; try discriminate.
    intros _. apply take_class_all in E. tauto.
  - intros [H1 H2]. rewrite (proj2 (take_class_all _ n s)); [reflexivity | tauto].
Qed.

Lemma fullmatch_alt r1 r2 s :
  Re.fullmatch (Re.Alt r1 r2) s = Re.fullmatch r1 s || Re.fullmatch r2 s.
Proof. reflexivity. Qed.

Lemma fullmatch_repeat_hex_eq n s :
  Re.fullmatch (Re.Repeat B3Format.hex_class n) s =
  all_hex_chars s && (length s =? n)%nat.
Proof.
  apply eq_true_iff_eq.
  rewrite fullmatch_repeat_hex, andb_true_iff, Nat.eqb_eq. reflexivity.
Qed.

Lemma trace_id_regex_spec s :
  Re.fullmatch B3Format._trace_id_regex s = accepts_trace_id s.
Proof.
  unfold accepts_trace_id, B3Format._trace_id_regex.
  rewrite fullmatch_alt, !fullmatch_repeat_hex_eq.
  destruct (all_hex_chars s); reflexivity.
Qed.

Lemma span_id_regex_spec s :
  Re.fullmatch B3Format._span_id_regex s = accepts_span_id s.
Proof. apply fullmatch_repeat_hex_eq. Qed.

(** C8, as the spec states it, fails: sixteen Arabic-Indic digits one are
    no hex digits, and both patterns accept them ([\d] matches the decimal
    digits of every script). *)
Lemma id_validation_counterexample :
  Re.fullmatch B3Format._trace_id_regex arabic_indic_ones = true /\
  validate_trace_id arabic_indic_ones = false /\
  Re.fullmatch B3Format._span_id_regex arabic_indic_ones = true /\
  validate_span_id arabic_indic_ones = false.
Proof. vm_compute. repeat split. Qed.

(** C8, as amended. The trace id pattern accepts exactly the strings of 16
    or of 32 characters each of which is a Unicode decimal digit or a
    letter a-f in either case, and the span id pattern exactly such strings
    of 16 characters. *)
Theorem id_validation_accepts (s : str) :
  Re.fullmatch B3Format._trace_id_regex s = accepts_trace_id s /\
  Re.fullmatch B3Format._span_id_regex s = accepts_span_id s.
Proof. split; [apply trace_id_regex_spec | apply span_id_regex_spec]. Qed.

Example trace_id_regex_rejects_17 :
  Re.fullmatch B3Format._trace_id_regex "0123456789abcdef0" = false.
Proof. reflexivity. Qed.

Example trace_id_regex_accepts_upper :
  Re.fullmatch B3Format._trace_id_regex "0123456789ABCDEF" = true.
Proof. reflexivity. Qed.

Lemma hex_char_ascii_table :
  forallb (fun c => bool_decide (is_hex_char c = is_hex_digit c))
    (map N.of_nat (seq 0 128)) = true.
Proof. vm_compute. reflexivity. Qed.

Lemma is_hex_char_ascii c : c < 128 -> is_hex_char c = is_hex_digit c.
Proof.
  intros Hc. pose proof hex_char_ascii_table as T.
  rewrite forallb_forall in T. eapply bool_decide_eq_true_1, T.
  apply in_map_iff. exists (N.to_nat c). split; [lia|]. apply in_seq. lia.
Qed.

(** On strings of ASCII characters the two patterns accept what the spec
    says: hex digits only, 16 or 32 (16) of them. *)
Lemma id_validation_on_ascii s :
  Forall (fun c => c < 128) s ->
  Re.fullmatch B3Format._trace_id_regex s = validate_trace_id s /\
  Re.fullmatch B3Format._span_id_regex s = validate_span_id s.
Proof.
  intros A.
  assert (H : all_hex_chars s = all_hex s).
  { unfold all_hex_chars, all_hex.
    induction A as [|c s Hc A IH]; [reflexivity|].
    cbn [forallb]. rewrite IH, (is_hex_char_ascii c Hc). reflexivity. }
  rewrite trace_id_regex_spec, span_id_regex_spec.
  unfold accepts_trace_id, accepts_span_id, validate_trace_id, validate_span_id.
  rewrite H. split; reflexivity.
Qed.

(** ** The identifier codec *)

Lemma hex_digit_table :
  forallb (fun d => is_hex_char (Py.hex_char d)
                    && bool_decide (Py.hex_value (Py.hex_char d) = Some d))
    (map N.of_nat (seq 0 16)) = true.
Proof. vm_compute. reflexivity. Qed.

Lemma hex_char_spec d :
  d < 16 -> is_hex_char (Py.hex_char d) = true /\ Py.hex_value (Py.hex_char d) = Some d.
Proof.
  intros Hd. pose proof hex_digit_table as T.
  rewrite forallb_forall in T.
  specialize (T d). rewrite andb_true_iff, bool_decide_eq_true in T.
  apply T. apply in_map_iff. exists (N.to_nat d). split; [lia|].
  apply in_seq. lia.
Qed.

Lemma hex_fixed_length w : forall n acc,
  length (Py.hex_fixed w n acc) = (w + length acc)%nat.
Proof.
  induction w as [|w IH]; intros n acc; simpl; [reflexivity|].
  rewrite IH. simpl. lia.
Qed.

Lemma hex_fixed_all_hex w : forall n acc,
  all_hex_chars acc = true -> all_hex_chars (Py.hex_fixed w n acc) = true.
Proof.
  induction w as [|w IH]; intros n acc Hacc; simpl; [exact Hacc|].
  apply IH. unfold all_hex_chars in *. cbn [forallb]. rewrite Hacc, andb_true_r.
  apply hex_char_spec. apply N.mod_lt. lia.
Qed.

Lemma int_digits_hex_fixed w : forall n acc a,
  Py.int_digits a (Py.hex_fixed w n acc) =
  Py.int_digits (a * 16 ^ N.of_nat w + n mod 16 ^ N.of_nat w) acc.
Proof.
  induction w as [|w IH]; intros n acc a.
  - simpl. rewrite N.mod_1_r. f_equal. lia.
  - cbn [Py.hex_fixed]. rewrite IH. cbn [Py.int_digits].
    destruct (hex_char_spec (n mod 16)) as [_ ->]; [apply N.mod_lt; lia|].
    f_equal. rewrite Nat2N.inj_succ, N.pow_succ_r'.
    rewrite (N.Div0.mod_mul_r n 16 (16 ^ N.of_nat w)). lia.
Qed.

Lemma int16_hex_fixed w n :
  (0 < w)%nat -> n < 16 ^ N.of_nat w -> Py.int16 (Py.hex_fixed w n []) = Some n.
Proof.
  intros Hw Hn. unfold Py.int16.
  destruct (Py.hex_fixed w n []) eqn:E.
  - apply (f_equal length) in E. rewrite hex_fixed_length in E. simpl in E. lia.
  - rewrite <- E, int_digits_hex_fixed. simpl. f_equal. rewrite N.mod_small; lia.
Qed.

Lemma hex_width_bound n w :
  n < 16 ^ N.of_nat w -> (Py.hex_width n <= w)%nat.
Proof.
  intros Hn. unfold Py.hex_width.
  destruct (N.eq_dec n 0) as [->|Hz]; [vm_compute; lia|].
  rewrite N.size_log2 by exact Hz.
  assert (L : N.log2 n < 4 * N.of_nat w).
  { apply N.log2_lt_pow2; [lia|].
    rewrite N.pow_mul_r. exact Hn. }
  assert (D : (N.succ (N.log2 n) + 3) / 4 <= N.of_nat w).
  { apply N.lt_succ_r. apply N.Div0.div_lt_upper_bound. lia. }
  lia.
Qed.

Lemma format_0x_fixed w n :
  (0 < w)%nat -> n < 16 ^ N.of_nat w -> Py.format_0x w n = Py.hex_fixed w n [].
Proof.
  intros Hw Hn. unfold Py.format_0x.
  pose proof (hex_width_bound n w Hn).
  replace (Nat.max w (Nat.max 1 (Py.hex_width n))) with w by lia. reflexivity.
Qed.

Lemma format_trace_id_valid n :
  n < 2 ^ 128 ->
  Re.fullmatch B3Format._trace_id_regex (format_trace_id n) = true /\
  Py.int16 (format_trace_id n) = Some n.
Proof.
  intros Hn. unfold format_trace_id.
  rewrite (format_0x_fixed 32 n) by (try lia; exact Hn).
  split.
  - rewrite trace_id_regex_spec. unfold accepts_trace_id.
    rewrite hex_fixed_all_hex, hex_fixed_length by reflexivity. reflexivity.
  - apply int16_hex_fixed; [lia | exact Hn].
Qed.

Lemma format_span_id_valid n :
  n < 2 ^ 64 ->
  Re.fullmatch B3Format._span_id_regex (format_span_id n) = true /\
  Py.int16 (format_span_id n) = Some n.
Proof.
  intros Hn. unfold format_span_id.
  rewrite (format_0x_fixed 16 n) by (try lia; exact Hn).
  split.
  - rewrite span_id_regex_spec. unfold accepts_span_id.
    rewrite hex_fixed_all_hex, hex_fixed_length by reflexivity. reflexivity.
  - apply int16_hex_fixed; [lia | exact Hn].
Qed.

Lemma is_hex_char_value c :
  is_hex_char c = true -> is_Some (Py.hex_value c).
Proof.
  unfold is_hex_char, Py.hex_value. destruct (Py.decimal c) as [d|] eqn:D.
  - intros _. eexists; reflexivity.
  - rewrite <- letter_range_members. cbn [orb].
    destruct ((97 <=? c) && (c <=? 102)); [intros _; eexists; reflexivity|].
    destruct ((65 <=? c) && (c <=? 70)); [intros _; eexists; reflexivity|].
    discriminate.
Qed.

Lemma int_digits_all_hex s : forall a,
  all_hex_chars s = true -> is_Some (Py.int_digits a s).
Proof.
  induction s as [|c s IH]; intros a H; simpl; [eexists; reflexivity|].
  unfold all_hex_chars in H. simpl in H. apply andb_true_iff in H as [Hc Hs].
  destruct (is_hex_char_value c Hc) as [d ->]. apply IH. exact Hs.
Qed.

Lemma int16_all_hex s :
  all_hex_chars s = true -> s <> [] -> is_Some (Py.int16 s).
Proof.
  intros H Hne. destruct s; [congruence|]. apply int_digits_all_hex, H.
Qed.

Lemma int16_trace_id s :
  Re.fullmatch B3Format._trace_id_regex s = true -> is_Some (Py.int16 s).
Proof.
  rewrite trace_id_regex_spec. unfold accepts_trace_id.
  intros [H L]%andb_true_iff. apply int16_all_hex; [exact H|].
  intros ->. discriminate L.
Qed.

Lemma int16_span_id s :
  Re.fullmatch B3Format._span_id_regex s = true -> is_Some (Py.int16 s).
Proof.
  rewrite span_id_regex_spec. unfold accepts_span_id.
  intros [H L]%andb_true_iff. apply int16_all_hex; [exact H|].
  intros ->. discriminate L.
Qed.

(** ** [extract] and [inject], path by path *)

Section Paths.

Context {Carrier G : Type}.
Variable get_from_carrier : Carrier -> str -> option (list str).
Variable generate_trace_id : G -> N * G.
Variable generate_span_id : G -> N * G.

Local Abbreviation read_headers := (B3Format.read_headers (G := G) get_from_carrier).
Local Abbreviation extract :=
  (B3Format.extract get_from_carrier generate_trace_id generate_span_id).
Local Abbreviation first := (first_value get_from_carrier).

Ltac run_monad :=
  unfold B3Format.getter, B3Format.new_trace_id,
    B3Format.new_span_id, record, raise_unless, mbind, M_bind, mret, M_ret, logged;
  cbn [generator calls].

(** A non-empty combined header: one getter call, and the fields decide. *)
Lemma read_headers_single carrier w h :
  first carrier B3Format.SINGLE_HEADER_KEY = Some h -> h <> [] ->
  read_headers carrier w =
  (Returned
     match Py.split (Py.ord "-") 4 h with
     | [f0] => Some (format_trace_id trace.INVALID_TRACE_ID,
                     format_span_id trace.INVALID_SPAN_ID, f0, None)
     | [f0; f1] => Some (f0, f1, "1", None)
     | [f0; f1; f2] => Some (f0, f1, f2, None)
     | [f0; f1; f2; _] => Some (f0, f1, f2, None)
     | _ => None
     end,
   logged w [CallGetter B3Format.SINGLE_HEADER_KEY]).
Proof.
  intros H Hne. unfold B3Format.read_headers. run_monad.
  unfold first_value in H. rewrite H.
  destruct h as [|c h]; [congruence|].
  destruct (Py.split (Py.ord "-") 4 (c :: h)) as [|f0 [|f1 [|f2 [|f3 [|f4 l]]]]];
    reflexivity.
Qed.

(** No usable combined header: the four discrete headers are read. *)
Lemma read_headers_discrete carrier w :
  Py.truthy (first carrier B3Format.SINGLE_HEADER_KEY) = false ->
  read_headers carrier w =
  (Returned
     (Some (Py.or_str (first carrier B3Format.TRACE_ID_KEY)
              (format_trace_id trace.INVALID_TRACE_ID),
            Py.or_str (first carrier B3Format.SPAN_ID_KEY)
              (format_span_id trace.INVALID_SPAN_ID),
            Py.or_str (first carrier B3Format.SAMPLED_KEY) "0",
            Py.or_opt (first carrier B3Format.FLAGS_KEY) None)),
   logged w [CallGetter B3Format.SINGLE_HEADER_KEY;
             CallGetter B3Format.TRACE_ID_KEY;
             CallGetter B3Format.SPAN_ID_KEY;
             CallGetter B3Format.SAMPLED_KEY;
             CallGetter B3Format.FLAGS_KEY]).
Proof.
  intros H. unfold B3Format.read_headers. run_monad.
  unfold first_value in *.
  destruct (_extract_first_element (get_from_carrier carrier B3Format.SINGLE_HEADER_KEY))
    as [[|c h]|]; try discriminate H;
    cbn [generator calls]; rewrite <- !app_assoc; reflexivity.
Qed.

Lemma extract_short_circuit carrier w w1 :
  read_headers carrier w = (Returned None, w1) ->
  extract carrier w = (Returned (trace.set_span_in_context trace.INVALID_SPAN), w1).
Proof.
  intros H. unfold B3Format.extract. unfold mbind at 1, M_bind at 1.
  rewrite H. reflexivity.
Qed.

Lemma extract_decoded carrier w w1 t s sa fl :
  read_headers carrier w = (Returned (Some (t, s, sa, fl)), w1) ->
  Re.fullmatch B3Format._trace_id_regex t = true ->
  Re.fullmatch B3Format._span_id_regex s = true ->
  exists a b, Py.int16 t = Some a /\ Py.int16 s = Some b /\
    extract carrier w = (Returned (remote_span a b (options_of sa fl)), w1).
Proof.
  intros H Ht Hs.
  destruct (int16_trace_id t Ht) as [a Ha], (int16_span_id s Hs) as [b Hb].
  exists a, b. split; [exact Ha|]. split; [exact Hb|].
  unfold B3Format.extract. unfold mbind at 1, M_bind at 1.
  rewrite H, Ht, Hs. run_monad. rewrite Ha, Hb. reflexivity.
Qed.

Lemma extract_generated carrier w w1 t s sa fl :
  read_headers carrier w = (Returned (Some (t, s, sa, fl)), w1) ->
  Re.fullmatch B3Format._trace_id_regex t && Re.fullmatch B3Format._span_id_regex s = false ->
  extract carrier w =
  (Returned (remote_span (generate_trace_id (generator w1)).1
               (generate_span_id (generate_trace_id (generator w1)).2).1
               (options_of "0" fl)),
   mkWorld (generate_span_id (generate_trace_id (generator w1)).2).2
     (calls w1 ++ [CallGenerateTraceId; CallGenerateSpanId])).
Proof.
  intros H Hv.
  unfold B3Format.extract. unfold mbind at 1, M_bind at 1. rewrite H.
  replace (negb (Re.fullmatch B3Format._trace_id_regex t)
           || negb (Re.fullmatch B3Format._span_id_regex s)) with true
    by (rewrite <- negb_andb, Hv; reflexivity).
  run_monad.
  destruct (generate_trace_id (generator w1)) as [i g1]; cbn [generator calls fst snd].
  destruct (generate_span_id g1) as [j g2]; cbn [fst snd].
  rewrite <- app_assoc. reflexivity.
Qed.

End Paths.

(** ** The claims about [inject] *)

Section Inject.

Context {Carrier G : Type}.
Variable set_in_carrier : Carrier -> str -> str -> Carrier.

Local Abbreviation inject := (B3Format.inject (G := G) set_in_carrier).

Lemma inject_valid carrier span (w : World G) :
  trace.is_invalid (trace.get_context span) = false ->
  inject carrier span w =
  (Returned (apply_writes set_in_carrier carrier (header_writes span)),
   logged w (header_writes span)).
Proof.
  intros Hv. unfold B3Format.inject, trace.get_current_span. rewrite Hv.
  unfold header_writes, trace.sampled, B3Format.setter, record, mbind, M_bind,
    mret, M_ret, logged.
  destruct (trace.parent span) as [p|]; cbn [generator calls app apply_writes fold_left];
    rewrite <- !app_assoc; reflexivity.
Qed.

(** C4. If the active span's context has the sentinel identifiers
    (trace_id = 0 and span_id = 0), [inject] returns without a single call:
    the call log and the carrier are as they were. *)
Theorem inject_sentinel_writes_nothing carrier span (w : World G) :
  trace.trace_id (trace.get_context span) = 0 ->
  trace.span_id (trace.get_context span) = 0 ->
  inject carrier span w = (Returned carrier, w).
Proof.
  intros Ht Hs. unfold B3Format.inject, trace.get_current_span, trace.is_invalid.
  rewrite Ht, Hs. reflexivity.
Qed.

(** C9. For a context that is not the sentinel, [inject] writes the trace
    id, the span id and the sampled header in every case, and the
    x-b3-parentspanid header, with the formatted span id of the parent,
    exactly when the span has a parent: without one no call to the setter
    names that key. *)
Theorem inject_parent_header_iff_parent carrier span (w : World G) :
  trace.is_invalid (trace.get_context span) = false ->
  exists carrier' l,
    inject carrier span w = (Returned carrier', logged w l) /\
    carrier' = apply_writes set_in_carrier carrier l /\
    l = ([CallSetter "x-b3-traceid"
           (format_trace_id (trace.trace_id (trace.get_context span)));
         CallSetter "x-b3-spanid"
           (format_span_id (trace.span_id (trace.get_context span)))]
        ++ match trace.parent span with
           | Some p => [CallSetter "x-b3-parentspanid"
                          (format_span_id (trace.span_id p))]
           | None => []
           end
        ++ [CallSetter "x-b3-sampled"
              (if trace.sampled (trace.get_context span) then "1" else "0")])%list /\
    (forall v, In (CallSetter "x-b3-parentspanid" v) l <->
               exists p, trace.parent span = Some p
                         /\ v = format_span_id (trace.span_id p)).
Proof.
  intros Hv. eexists _, _. split; [apply inject_valid, Hv|].
  split; [reflexivity|]. split; [reflexivity|].
  intros v. unfold header_writes. destruct (trace.parent span) as [p|]; simpl.
  - split.
    + intros [H|[H|[H|[H|[]]]]]; try discriminate H.
      injection H as <-. eauto.
    + intros (q & [= <-] & ->). auto.
  - split.
    + intros [H|[H|[H|[]]]]; discriminate H.
    + intros (q & H & _). discriminate H.
Qed.

End Inject.

(** [extract] looks at the carrier through [read_headers] only. *)
Lemma extract_ext {C1 C2 G : Type}
    (get1 : C1 -> str -> option (list str))
    (get2 : C2 -> str -> option (list str))
    (gen_t gen_s : G -> N * G) c1 c2 (w : World G) :
  B3Format.read_headers get1 c1 w = B3Format.read_headers get2 c2 w ->
  B3Format.extract get1 gen_t gen_s c1 w = B3Format.extract get2 gen_t gen_s c2 w.
Proof.
  intros H. unfold B3Format.extract.
  change (B3Format.read_headers get1 c1 ≫= ?k) with
    (fun w0 => match B3Format.read_headers get1 c1 w0 with
               | (Returned a, w') => k a w'
               | (ValueError, w') => (ValueError, w')
               end).
  change (B3Format.read_headers get2 c2 ≫= ?k) with
    (fun w0 => match B3Format.read_headers get2 c2 w0 with
               | (Returned a, w') => k a w'
               | (ValueError, w') => (ValueError, w')
               end).
  cbv beta. rewrite H. reflexivity.
Qed.

Lemma propagates_iff sa :
  B3Format.propagates sa = true <->
  sa = "1" \/ sa = "True" \/ sa = "true" \/ sa = "d".
Proof.
  unfold B3Format.propagates, B3Format._SAMPLE_PROPAGATE_VALUES. cbn [existsb].
  rewrite !orb_true_iff, !eqb_eq. intuition discriminate.
Qed.

Lemma flags_set_iff fl : B3Format.flags_set fl = true <-> fl = Some "1".
Proof.
  destruct fl as [f|]; simpl.
  - rewrite eqb_eq. split; congruence.
  - split; discriminate.
Qed.

Lemma sampled_remote_span a b sa fl :
  trace.sampled (trace.get_context (remote_span a b (options_of sa fl))) =
  B3Format.propagates sa || B3Format.flags_set fl.
Proof.
  unfold options_of.
  destruct (B3Format.propagates sa || B3Format.flags_set fl); reflexivity.
Qed.

Lemma or_str_cases x d : Py.or_str x d = d \/ x = Some (Py.or_str x d).
Proof. destruct x as [[|c s]|]; simpl; auto. Qed.

(** ** The claims about [extract] *)

Section Extract.

Context {Carrier G : Type}.
Variable get_from_carrier : Carrier -> str -> option (list str).
Variable generate_trace_id : G -> N * G.
Variable generate_span_id : G -> N * G.

Local Abbreviation read_headers := (B3Format.read_headers (G := G) get_from_carrier).
Local Abbreviation extract :=
  (B3Format.extract get_from_carrier generate_trace_id generate_span_id).
Local Abbreviation first := (first_value get_from_carrier).

(** Either way the headers resolve, [extract] returns a context; past the
    reading of the headers it calls nothing but the generator. *)
Lemma extract_after_headers carrier (w w1 : World G) hs :
  read_headers carrier w = (Returned hs, w1) ->
  exists ctx g' l,
    extract carrier w = (Returned ctx, mkWorld g' (calls w1 ++ l)) /\
    Forall is_generator_call l.
Proof.
  intros H. destruct hs as [[[[t s] sa] fl]|].
  - destruct (Re.fullmatch B3Format._trace_id_regex t
              && Re.fullmatch B3Format._span_id_regex s) eqn:V.
    + apply andb_true_iff in V as [Vt Vs].
      destruct (extract_decoded _ generate_trace_id generate_span_id
                  _ _ _ _ _ _ _ H Vt Vs) as (a & b & _ & _ & E).
      exists (remote_span a b (options_of sa fl)), (generator w1), [].
      rewrite app_nil_r. destruct w1. split; [exact E | constructor].
    + eexists _, _, _. split.
      * apply (extract_generated _ generate_trace_id generate_span_id
                 _ _ _ _ _ _ _ H V).
      * constructor; [left; reflexivity|].
        constructor; [right; reflexivity | constructor].
  - exists (trace.set_span_in_context trace.INVALID_SPAN), (generator w1), [].
    rewrite app_nil_r. destruct w1. split; [|constructor].
    apply extract_short_circuit, H.
Qed.

(** C5. A non-empty combined header whose field count is none of 1, 2, 3, 4
    makes [extract] return the invalid sentinel span, sampled = false, after
    the one getter call that read the combined header: no discrete header
    is read and the generator is neither called nor advanced. *)
Theorem extract_malformed_single_header carrier (w : World G) h :
  first carrier "b3" = Some h ->
  h <> [] ->
  ~ In (length (Py.split (Py.ord "-") 4 h)) [1; 2; 3; 4]%nat ->
  exists ctx,
    extract carrier w = (Returned ctx, mkWorld (generator w) (calls w ++ [CallGetter "b3"])) /\
    ctx = trace.set_span_in_context trace.INVALID_SPAN /\
    trace.trace_id (trace.get_context ctx) = 0 /\
    trace.span_id (trace.get_context ctx) = 0 /\
    trace.sampled (trace.get_context ctx) = false.
Proof.
  intros H Hne Hn. eexists. split; [|repeat split].
  apply extract_short_circuit.
  rewrite (read_headers_single _ _ _ _ H Hne).
  destruct (Py.split (Py.ord "-") 4 h) as [|f0 [|f1 [|f2 [|f3 [|f4 l]]]]];
    try reflexivity; exfalso; apply Hn; simpl; auto.
Qed.

(** C6. With a non-empty first value [h] under the combined header,
    [extract] calls the getter once, for that header, and then at most the
    generator; and the outcome is the same for any getter and carrier whose
    combined header starts with [h], whatever the other headers hold. *)
Theorem extract_single_header_precedence carrier (w : World G) h :
  first carrier "b3" = Some h ->
  h <> [] ->
  (exists ctx g' l,
     extract carrier w = (Returned ctx, mkWorld g' (calls w ++ CallGetter "b3" :: l)) /\
     Forall is_generator_call l) /\
  (forall (Carrier' : Type) (get' : Carrier' -> str -> option (list str))
          (carrier' : Carrier'),
     first_value get' carrier' "b3" = Some h ->
     B3Format.extract get' generate_trace_id generate_span_id carrier' w =
     extract carrier w).
Proof.
  intros H Hne. split.
  - destruct (extract_after_headers carrier w _ _ (read_headers_single _ _ _ _ H Hne))
      as (ctx & g' & l & E & Hl).
    exists ctx, g', l. split; [|exact Hl].
    rewrite E. unfold logged; cbn [generator calls].
    rewrite <- app_assoc. reflexivity.
  - intros Carrier' get' carrier' H'. apply extract_ext.
    rewrite (read_headers_single _ _ _ _ H Hne).
    rewrite (read_headers_single _ _ _ _ H' Hne). reflexivity.
Qed.

(** C10. When the getter yields [None], no value, or an empty first value
    under the combined header, [extract] does what it does on a carrier
    without that header: it reads the four discrete headers, the headers
    resolve (no short-circuit), and the outcome is the one of the getter
    that hides the combined header. *)
Theorem extract_empty_single_header_as_absent carrier (w : World G) :
  get_from_carrier carrier "b3" = None \/
  get_from_carrier carrier "b3" = Some [] \/
  (exists rest, get_from_carrier carrier "b3" = Some ([] :: rest)) ->
  extract carrier w =
    B3Format.extract (without_single_header get_from_carrier)
      generate_trace_id generate_span_id carrier w /\
  exists hs,
    read_headers carrier w =
    (Returned (Some hs),
     mkWorld (generator w)
       (calls w ++ [CallGetter "b3"; CallGetter "x-b3-traceid";
                    CallGetter "x-b3-spanid"; CallGetter "x-b3-sampled";
                    CallGetter "x-b3-flags"])).
Proof.
  intros H.
  assert (F : Py.truthy (first carrier B3Format.SINGLE_HEADER_KEY) = false).
  { unfold first_value, B3Format.SINGLE_HEADER_KEY.
    destruct H as [-> | [-> | [rest ->]]]; reflexivity. }
  split.
  - apply extract_ext.
    rewrite (read_headers_discrete _ _ _ F).
    rewrite (read_headers_discrete (without_single_header get_from_carrier) carrier w)
      by reflexivity.
    reflexivity.
  - eexists. apply (read_headers_discrete _ _ _ F).
Qed.

(** How the headers resolve: to nothing exactly for a malformed combined
    header, otherwise to four strings of which the two identifier strings
    are values of the carrier or the defaults. *)
Lemma read_headers_cases carrier (w : World G) :
  (malformed_single_header get_from_carrier carrier /\
   read_headers carrier w = (Returned None, logged w [CallGetter "b3"]))
  \/
  (~ malformed_single_header get_from_carrier carrier /\
   exists t s sa fl l,
     read_headers carrier w = (Returned (Some (t, s, sa, fl)), logged w l) /\
     (t = format_trace_id 0 \/ carrier_value get_from_carrier carrier t) /\
     (s = format_span_id 0 \/ carrier_value get_from_carrier carrier s)).
Proof.
  destruct (first carrier B3Format.SINGLE_HEADER_KEY) as [h|] eqn:E.
  2: { right. split.
       - intros (h & Hh & _). congruence.
       - eexists _, _, _, _, _. split.
         + apply read_headers_discrete. rewrite E. reflexivity.
         + split.
           * destruct (or_str_cases (first carrier B3Format.TRACE_ID_KEY)
                         (format_trace_id trace.INVALID_TRACE_ID)) as [->|Hv];
               [left; reflexivity | right; eexists _, _; split; [exact Hv | left; reflexivity]].
           * destruct (or_str_cases (first carrier B3Format.SPAN_ID_KEY)
                         (format_span_id trace.INVALID_SPAN_ID)) as [->|Hv];
               [left; reflexivity | right; eexists _, _; split; [exact Hv | left; reflexivity]]. }
  destruct (decide (h = [])) as [->|Hne].
  { right. split.
    - intros (h & Hh & Hn & _). congruence.
    - eexists _, _, _, _, _. split.
      + apply read_headers_discrete. rewrite E. reflexivity.
      + split.
        * destruct (or_str_cases (first carrier B3Format.TRACE_ID_KEY)
                      (format_trace_id trace.INVALID_TRACE_ID)) as [->|Hv];
            [left; reflexivity | right; eexists _, _; split; [exact Hv | left; reflexivity]].
        * destruct (or_str_cases (first carrier B3Format.SPAN_ID_KEY)
                      (format_span_id trace.INVALID_SPAN_ID)) as [->|Hv];
            [left; reflexivity | right; eexists _, _; split; [exact Hv | left; reflexivity]]. }
  pose proof (read_headers_single get_from_carrier carrier w h E Hne) as R.
  assert (V : forall f, In f (Py.split (Py.ord "-") 4 h) -> carrier_value get_from_carrier carrier f).
  { intros f Hf. exists B3Format.SINGLE_HEADER_KEY, h. split; [exact E | right; exact Hf]. }
  assert (NM : forall n, In n [1; 2; 3; 4]%nat -> length (Py.split (Py.ord "-") 4 h) = n ->
                         ~ malformed_single_header get_from_carrier carrier).
  { intros n Hn L (h' & Hh' & _ & Hc).
    rewrite E in Hh'. injection Hh' as <-. apply Hc. rewrite L. exact Hn. }
  destruct (Py.split (Py.ord "-") 4 h) as [|f0 [|f1 [|f2 [|f3 [|f4 l]]]]] eqn:S.
  - left. split; [|exact R]. exists h. repeat split; [exact E | exact Hne |].
    rewrite S. simpl. lia.
  - right. split; [apply (NM 1%nat); simpl; auto|].
    eexists _, _, _, _, _. split; [exact R|]. split; left; reflexivity.
  - right. split; [apply (NM 2%nat); simpl; auto|].
    eexists _, _, _, _, _. split; [exact R|].
    split; right; apply V; simpl; auto.
  - right. split; [apply (NM 3%nat); simpl; auto|].
    eexists _, _, _, _, _. split; [exact R|].
    split; right; apply V; simpl; auto.
  - right. split; [apply (NM 4%nat); simpl; auto|].
    eexists _, _, _, _, _. split; [exact R|].
    split; right; apply V; simpl; auto.
  - left. split; [|exact R]. exists h. repeat split; [exact E | exact Hne |].
    rewrite S. simpl. lia.
Qed.

(** C7. On a carrier whose combined header is not malformed, the headers
    resolve to four strings and the context [extract] returns is sampled
    exactly when the sampled indicator (the resolved sampled string, or "0"
    once the identifiers failed the validation) is one of "1", "True",
    "true", "d", or the resolved flags string is "1". *)
Theorem extract_sampled_iff carrier (w : World G) :
  ~ malformed_single_header get_from_carrier carrier ->
  exists t s sa fl w1 ctx w2,
    read_headers carrier w = (Returned (Some (t, s, sa, fl)), w1) /\
    extract carrier w = (Returned ctx, w2) /\
    (trace.sampled (trace.get_context ctx) = true <->
     (sampled_indicator t s sa = "1" \/ sampled_indicator t s sa = "True" \/
      sampled_indicator t s sa = "true" \/ sampled_indicator t s sa = "d")
     \/ fl = Some "1").
Proof.
  intros NM.
  destruct (read_headers_cases carrier w) as [[M _]|(_ & t & s & sa & fl & l & R & _)];
    [contradiction|].
  exists t, s, sa, fl, (logged w l).
  unfold sampled_indicator.
  destruct (Re.fullmatch B3Format._trace_id_regex t
            && Re.fullmatch B3Format._span_id_regex s) eqn:V.
  - apply andb_true_iff in V as [Vt Vs].
    destruct (extract_decoded _ generate_trace_id generate_span_id
                _ _ _ _ _ _ _ R Vt Vs) as (a & b & _ & _ & E).
    eexists _, _. split; [exact R|]. split; [exact E|].
    rewrite sampled_remote_span, orb_true_iff, propagates_iff, flags_set_iff.
    reflexivity.
  - eexists _, _. split; [exact R|]. split.
    + apply (extract_generated _ generate_trace_id generate_span_id _ _ _ _ _ _ _ R V).
    + rewrite sampled_remote_span, orb_true_iff, propagates_iff, flags_set_iff.
      reflexivity.
Qed.

(** Identifiers that fail the validation are replaced by the generator's,
    and the sampled flag is then the flags string's alone. *)
Lemma extract_invalid_ids carrier (w w1 : World G) t s sa fl :
  read_headers carrier w = (Returned (Some (t, s, sa, fl)), w1) ->
  Re.fullmatch B3Format._trace_id_regex t
    && Re.fullmatch B3Format._span_id_regex s = false ->
  exists ctx w2,
    extract carrier w = (Returned ctx, w2) /\
    fresh_pair generate_trace_id generate_span_id (generator w1) (trace.get_context ctx) /\
    trace.sampled (trace.get_context ctx) = B3Format.flags_set fl.
Proof.
  intros R V. eexists _, _. split.
  - apply (extract_generated _ generate_trace_id generate_span_id _ _ _ _ _ _ _ R V).
  - split; [split; reflexivity|]. apply sampled_remote_span.
Qed.

(** C1, as amended. Every carrier gets a context from [extract], and the
    context has exactly one of three origins: decoded from regex-conformant
    identifier strings, each a value of the carrier or the all-zero default,
    with the sampled flag the sampled and flags strings give; a fresh pair
    from the generator, not sampled unless the flags string is "1"; or the
    invalid sentinel, not sampled, for a malformed combined header. *)
Theorem extract_origin carrier (w : World G) :
  exists ctx w',
    extract carrier w = (Returned ctx, w') /\
    let c := trace.get_context ctx in
    let decoded := origin_decoded get_from_carrier carrier w c in
    let generated :=
      origin_generated get_from_carrier generate_trace_id generate_span_id carrier w c in
    let sentinel := origin_sentinel get_from_carrier carrier c in
    (decoded /\ ~ generated /\ ~ sentinel) \/
    (~ decoded /\ generated /\ ~ sentinel) \/
    (~ decoded /\ ~ generated /\ sentinel).
Proof.
  destruct (read_headers_cases carrier w)
    as [[M R]|(NM & t & s & sa & fl & l & R & Pt & Ps)].
  - eexists _, _. split; [apply extract_short_circuit, R|].
    right; right. split; [|split].
    + intros (t & s & sa & fl & w1 & R' & _). rewrite R in R'. discriminate R'.
    + intros (t & s & sa & fl & w1 & R' & _). rewrite R in R'. discriminate R'.
    + split; [exact M|]. split; reflexivity.
  - destruct (Re.fullmatch B3Format._trace_id_regex t
              && Re.fullmatch B3Format._span_id_regex s) eqn:V.
    + pose proof V as V'. apply andb_true_iff in V' as [Vt Vs].
      destruct (extract_decoded _ generate_trace_id generate_span_id
                  _ _ _ _ _ _ _ R Vt Vs) as (a & b & Ha & Hb & E).
      eexists _, _. split; [exact E|].
      left. split; [|split].
      * exists t, s, sa, fl, (logged w l).
        split; [exact R|]. split; [exact Pt|]. split; [exact Ps|].
        split; [exact Vt|]. split; [exact Vs|]. split; [exact Ha|].
        split; [exact Hb|]. apply sampled_remote_span.
      * intros (t' & s' & sa' & fl' & w1 & R' & V' & _).
        rewrite R in R'. injection R' as <- <- <- <- <-.
        rewrite V in V'. discriminate V'.
      * intros [M _]. contradiction.
    + eexists _, _. split.
      { apply (extract_generated _ generate_trace_id generate_span_id _ _ _ _ _ _ _ R V). }
      right; left. split; [|split].
      * intros (t' & s' & sa' & fl' & w1 & R' & _ & _ & Vt & Vs & _).
        rewrite R in R'. injection R' as <- <- <- <- <-.
        rewrite Vt, Vs in V. discriminate V.
      * exists t, s, sa, fl, (logged w l).
        split; [exact R|]. split; [exact V|]. split; [split; reflexivity|].
        cbv zeta. rewrite sampled_remote_span.
        change (B3Format.propagates "0") with false. rewrite orb_false_l.
        destruct (B3Format.flags_set fl) eqn:F; [left; apply flags_set_iff, F | right; reflexivity].
      * intros [M _]. contradiction.
Qed.

End Extract.

(** C1, as the spec states it, fails: for a carrier that holds nothing but
    x-b3-sampled = "1", [extract] returns the sentinel identifiers with
    sampled = true; no value of the carrier is regex-conformant, and the
    pair is neither unsampled nor fresh. *)
Lemma extract_origin_counterexample :
  ~ origin_as_stated HeaderDict.get SeqIds.generate_trace_id SeqIds.generate_span_id
      carrier_sampled_only (mkWorld 0 []).
Proof.
  intros (ctx & w' & E & H).
  assert (R : B3Format.extract HeaderDict.get SeqIds.generate_trace_id
                SeqIds.generate_span_id carrier_sampled_only (mkWorld 0 [])
              = (Returned (remote_span 0 0 1),
                 mkWorld 0 [CallGetter "b3"; CallGetter "x-b3-traceid";
                            CallGetter "x-b3-spanid"; CallGetter "x-b3-sampled";
                            CallGetter "x-b3-flags"]))
    by (vm_compute; reflexivity).
  rewrite R in E. injection E as <- <-.
  destruct H as [(t & s & (key & h & Hh & Ht) & _ & Vt & _) | [_ S]].
  - unfold first_value, HeaderDict.get, carrier_sampled_only in Hh.
    destruct (decide (key = "x-b3-sampled")) as [->|Hk].
    + rewrite lookup_singleton_eq in Hh. injection Hh as <-.
      destruct Ht as [<-|[<-|[]]]; discriminate Vt.
    + rewrite lookup_singleton_ne in Hh by congruence. discriminate Hh.
  - discriminate S.
Qed.

(** C3, at the failing input: with a trace id that is not hexadecimal and
    x-b3-flags = "1", [extract] discards the identifiers for the generator's
    1 and 2, and yet returns a sampled context. *)
Theorem extract_invalid_ids_debug_flag_sampled :
  exists ctx w',
    B3Format.extract HeaderDict.get SeqIds.generate_trace_id SeqIds.generate_span_id
      carrier_bad_trace_id_debug (mkWorld 0 []) = (Returned ctx, w') /\
    Re.fullmatch B3Format._trace_id_regex "nothex" = false /\
    trace.trace_id (trace.get_context ctx) = 1 /\
    trace.span_id (trace.get_context ctx) = 2 /\
    trace.sampled (trace.get_context ctx) = true.
Proof. eexists _, _. vm_compute. repeat split. Qed.

(** ** [inject], then [extract] *)

Section RoundTrip.

Context {Carrier G : Type}.
Variable get_from_carrier : Carrier -> str -> option (list str).
Variable set_in_carrier : Carrier -> str -> str -> Carrier.
Variable generate_trace_id : G -> N * G.
Variable generate_span_id : G -> N * G.

(** The getter reads back what the setter wrote and nothing else changed;
    the carrier [empty] has no header. *)
Hypothesis get_set_eq : forall c k v,
  first_value get_from_carrier (set_in_carrier c k v) k = Some v.
Hypothesis get_set_ne : forall c k k' v,
  k <> k' ->
  first_value get_from_carrier (set_in_carrier c k v) k' =
  first_value get_from_carrier c k'.
Variable empty : Carrier.
Hypothesis get_empty : forall k, first_value get_from_carrier empty k = None.

Lemma or_str_nonempty s d : s <> [] -> Py.or_str (Some s) d = s.
Proof. destruct s; [congruence | reflexivity]. Qed.

Lemma fullmatch_nonempty_trace s :
  Re.fullmatch B3Format._trace_id_regex s = true -> s <> [].
Proof. intros H ->. discriminate H. Qed.

Lemma fullmatch_nonempty_span s :
  Re.fullmatch B3Format._span_id_regex s = true -> s <> [].
Proof. intros H ->. discriminate H. Qed.

Lemma round_trip_lawful_carrier (c : trace.SpanContext) (w : World G) :
  0 < trace.trace_id c < 2 ^ 128 ->
  0 < trace.span_id c < 2 ^ 64 ->
  exists carrier w1 ctx w2,
    B3Format.inject set_in_carrier empty
      (trace.set_span_in_context {| trace.get_context := c; trace.parent := None |}) w
      = (Returned carrier, w1) /\
    B3Format.extract get_from_carrier generate_trace_id generate_span_id carrier w1
      = (Returned ctx, w2) /\
    trace.trace_id (trace.get_context ctx) = trace.trace_id c /\
    trace.span_id (trace.get_context ctx) = trace.span_id c /\
    trace.sampled (trace.get_context ctx) = trace.sampled c.
Proof.
  intros [Ht0 Ht] [Hs0 Hs].
  set (span := {| trace.get_context := c; trace.parent := None |}).
  assert (Hv : trace.is_invalid (trace.get_context span) = false).
  { unfold trace.is_invalid, trace.INVALID_TRACE_ID. cbn [trace.get_context span].
    replace (trace.trace_id c =? 0) with false by (symmetry; apply N.eqb_neq; lia).
    reflexivity. }
  destruct (format_trace_id_valid _ Ht) as [Vt It].
  destruct (format_span_id_valid _ Hs) as [Vs Is].
  eexists _, _. unfold trace.set_span_in_context at 1.
  rewrite (inject_valid set_in_carrier empty span w Hv).
  unfold header_writes. cbn [trace.parent trace.get_context span app apply_writes fold_left].
  set (ft := format_trace_id (trace.trace_id c)) in *.
  set (fs := format_span_id (trace.span_id c)) in *.
  set (sa := if trace.sampled c then "1" else "0").
  set (carrier := set_in_carrier _ B3Format.SAMPLED_KEY sa).
  assert (Hb3 : first_value get_from_carrier carrier B3Format.SINGLE_HEADER_KEY = None).
  { unfold carrier. rewrite !get_set_ne by discriminate. apply get_empty. }
  assert (Hfl : first_value get_from_carrier carrier B3Format.FLAGS_KEY = None).
  { unfold carrier. rewrite !get_set_ne by discriminate. apply get_empty. }
  assert (Htr : first_value get_from_carrier carrier B3Format.TRACE_ID_KEY = Some ft).
  { unfold carrier. rewrite !get_set_ne by discriminate. apply get_set_eq. }
  assert (Hsp : first_value get_from_carrier carrier B3Format.SPAN_ID_KEY = Some fs).
  { unfold carrier. rewrite !get_set_ne by discriminate. apply get_set_eq. }
  assert (Hsa : first_value get_from_carrier carrier B3Format.SAMPLED_KEY = Some sa).
  { unfold carrier. apply get_set_eq. }
  set (w1 := logged w _).
  assert (R : B3Format.read_headers get_from_carrier carrier w1 =
              (Returned (Some (ft, fs, sa, None)),
               logged w1 [CallGetter B3Format.SINGLE_HEADER_KEY;
                          CallGetter B3Format.TRACE_ID_KEY;
                          CallGetter B3Format.SPAN_ID_KEY;
                          CallGetter B3Format.SAMPLED_KEY;
                          CallGetter B3Format.FLAGS_KEY])).
  { rewrite read_headers_discrete by (rewrite Hb3; reflexivity).
    rewrite Htr, Hsp, Hsa, Hfl.
    rewrite (or_str_nonempty ft) by (apply fullmatch_nonempty_trace, Vt).
    rewrite (or_str_nonempty fs) by (apply fullmatch_nonempty_span, Vs).
    rewrite (or_str_nonempty sa) by (unfold sa; destruct (trace.sampled c); discriminate).
    reflexivity. }
  destruct (extract_decoded _ generate_trace_id generate_span_id
              _ _ _ _ _ _ _ R Vt Vs) as (a & b & Ha & Hb & E).
  eexists _, _. split; [reflexivity|]. split; [exact E|].
  rewrite It in Ha. rewrite Is in Hb. injection Ha as <-. injection Hb as <-.
  split; [reflexivity|]. split; [reflexivity|].
  rewrite sampled_remote_span. unfold sa.
  destruct (trace.sampled c); reflexivity.
Qed.

End RoundTrip.

Lemma header_dict_get_set_eq (c : HeaderDict.t) k v :
  first_value HeaderDict.get (HeaderDict.set c k v) k = Some v.
Proof.
  unfold first_value, HeaderDict.get, HeaderDict.set.
  rewrite lookup_insert_eq. reflexivity.
Qed.

Lemma header_dict_get_set_ne (c : HeaderDict.t) k k' v :
  k <> k' ->
  first_value HeaderDict.get (HeaderDict.set c k v) k' = first_value HeaderDict.get c k'.
Proof.
  intros H. unfold first_value, HeaderDict.get, HeaderDict.set.
  rewrite lookup_insert_ne by exact H. reflexivity.
Qed.

Lemma header_dict_get_empty k : first_value HeaderDict.get (∅ : HeaderDict.t) k = None.
Proof. unfold first_value, HeaderDict.get. rewrite lookup_empty. reflexivity. Qed.

(** C2. A context with a nonzero 128-bit trace_id and a nonzero 64-bit
    span_id, on a span without a parent, sampled or not: [inject] into the
    empty header dictionary, then [extract] from that dictionary, gives a
    context with the same trace_id, the same span_id and the same sampled
    flag. *)
Theorem inject_extract_round_trip {G : Type}
    (generate_trace_id generate_span_id : G -> N * G)
    (c : trace.SpanContext) (w : World G) :
  0 < trace.trace_id c < 2 ^ 128 ->
  0 < trace.span_id c < 2 ^ 64 ->
  exists carrier w1 ctx w2,
    B3Format.inject HeaderDict.set (∅ : HeaderDict.t)
      (trace.set_span_in_context {| trace.get_context := c; trace.parent := None |}) w
      = (Returned carrier, w1) /\
    B3Format.extract HeaderDict.get generate_trace_id generate_span_id carrier w1
      = (Returned ctx, w2) /\
    trace.trace_id (trace.get_context ctx) = trace.trace_id c /\
    trace.span_id (trace.get_context ctx) = trace.span_id c /\
    trace.sampled (trace.get_context ctx) = trace.sampled c.
Proof.
  apply round_trip_lawful_carrier.
  - apply header_dict_get_set_eq.
  - apply header_dict_get_set_ne.
  - apply header_dict_get_empty.
Qed.

(** ** The theorems at work *)

Example extract_prefers_single_header :
  B3Format.extract HeaderDict.get SeqIds.generate_trace_id SeqIds.generate_span_id
    carrier_both_encodings (mkWorld 7 [])
  = (Returned (remote_span 171395628812617415352188477958425669623
                 16453819474850114513 1),
     mkWorld 7 [CallGetter "b3"]).
Proof. vm_compute. reflexivity. Qed.

Example extract_decodes_arabic_indic :
  B3Format.extract HeaderDict.get SeqIds.generate_trace_id SeqIds.generate_span_id
    carrier_arabic_indic (mkWorld 0 [])
  = (Returned (remote_span 1229782938247303441 1229782938247303441 0),
     mkWorld 0 [CallGetter "b3"; CallGetter "x-b3-traceid"; CallGetter "x-b3-spanid";
                CallGetter "x-b3-sampled"; CallGetter "x-b3-flags"]).
Proof. vm_compute. reflexivity. Qed.

Example inject_with_parent :
  B3Format.inject HeaderDict.set (∅ : HeaderDict.t) span_with_parent (mkWorld 0%N [])
  = (Returned
       (<["x-b3-sampled" := ["1"]]>
          (<["x-b3-parentspanid" := ["0123456789abcdef"]]>
             (<["x-b3-spanid" := ["a2f9de2c28b6d312"]]>
                (<["x-b3-traceid" := ["463ac35c9f6413ad48485a3953bb6124"]]> ∅)))),
     mkWorld 0%N
       [CallSetter "x-b3-traceid" "463ac35c9f6413ad48485a3953bb6124";
        CallSetter "x-b3-spanid" "a2f9de2c28b6d312";
        CallSetter "x-b3-parentspanid" "0123456789abcdef";
        CallSetter "x-b3-sampled" "1"]).
Proof. vm_compute. reflexivity. Qed.

Lemma inject_sentinel_writes_nothing_witness :
  trace.trace_id (trace.get_context trace.INVALID_SPAN) = 0 /\
  trace.span_id (trace.get_context trace.INVALID_SPAN) = 0 /\
  B3Format.inject HeaderDict.set (∅ : HeaderDict.t) trace.INVALID_SPAN (mkWorld 0 [])
  = (Returned ∅, mkWorld 0 []).
Proof.
  split; [reflexivity|]. split; [reflexivity|].
  apply (inject_sentinel_writes_nothing HeaderDict.set ∅ trace.INVALID_SPAN (mkWorld 0 []));
    reflexivity.
Defined.

Lemma inject_parent_header_iff_parent_witness :
  trace.is_invalid (trace.get_context span_with_parent) = false /\
  exists carrier' l,
    B3Format.inject HeaderDict.set (∅ : HeaderDict.t) span_with_parent (mkWorld 0 [])
      = (Returned carrier', logged (mkWorld 0 []) l) /\
    carrier' = apply_writes HeaderDict.set ∅ l /\
    l = ([CallSetter "x-b3-traceid"
            (format_trace_id (trace.trace_id (trace.get_context span_with_parent)));
          CallSetter "x-b3-spanid"
            (format_span_id (trace.span_id (trace.get_context span_with_parent)))]
         ++ match trace.parent span_with_parent with
            | Some p => [CallSetter "x-b3-parentspanid"
                           (format_span_id (trace.span_id p))]
            | None => []
            end
         ++ [CallSetter "x-b3-sampled"
               (if trace.sampled (trace.get_context span_with_parent)
                then "1" else "0")])%list /\
    (forall v, In (CallSetter "x-b3-parentspanid" v) l <->
               exists p, trace.parent span_with_parent = Some p
                         /\ v = format_span_id (trace.span_id p)).
Proof.
  split; [reflexivity|].
  apply (inject_parent_header_iff_parent HeaderDict.set ∅ span_with_parent (mkWorld 0 [])).
  reflexivity.
Defined.

Lemma extract_malformed_single_header_witness :
  first_value HeaderDict.get carrier_malformed "b3" = Some "a-b-c-d-e" /\
  "a-b-c-d-e" <> [] /\
  ~ In (length (Py.split (Py.ord "-") 4 "a-b-c-d-e")) [1; 2; 3; 4]%nat /\
  exists ctx,
    B3Format.extract HeaderDict.get SeqIds.generate_trace_id SeqIds.generate_span_id
      carrier_malformed (mkWorld 0 [])
    = (Returned ctx, mkWorld 0 ([] ++ [CallGetter "b3"])) /\
    ctx = trace.set_span_in_context trace.INVALID_SPAN /\
    trace.trace_id (trace.get_context ctx) = 0 /\
    trace.span_id (trace.get_context ctx) = 0 /\
    trace.sampled (trace.get_context ctx) = false.
Proof.
  split; [vm_compute; reflexivity|]. split; [discriminate|].
  split; [simpl; lia|].
  apply (extract_malformed_single_header HeaderDict.get SeqIds.generate_trace_id
           SeqIds.generate_span_id carrier_malformed (mkWorld 0 []) "a-b-c-d-e").
  - vm_compute; reflexivity.
  - discriminate.
  - simpl; lia.
Defined.

Lemma extract_single_header_precedence_witness :
  first_value HeaderDict.get carrier_both_encodings "b3"
    = Some "80f198ee56343ba864fe8b2a57d3eff7-e457b5a2e4d86bd1-1" /\
  (exists ctx g' l,
     B3Format.extract HeaderDict.get SeqIds.generate_trace_id SeqIds.generate_span_id
       carrier_both_encodings (mkWorld 0 [])
     = (Returned ctx, mkWorld g' ([] ++ CallGetter "b3" :: l)) /\
     Forall is_generator_call l) /\
  (forall (Carrier' : Type) (get' : Carrier' -> str -> option (list str))
          (carrier' : Carrier'),
     first_value get' carrier' "b3"
       = Some "80f198ee56343ba864fe8b2a57d3eff7-e457b5a2e4d86bd1-1" ->
     B3Format.extract get' SeqIds.generate_trace_id SeqIds.generate_span_id
       carrier' (mkWorld 0 []) =
     B3Format.extract HeaderDict.get SeqIds.generate_trace_id SeqIds.generate_span_id
       carrier_both_encodings (mkWorld 0 [])).
Proof.
  split; [vm_compute; reflexivity|].
  apply (extract_single_header_precedence HeaderDict.get SeqIds.generate_trace_id
           SeqIds.generate_span_id carrier_both_encodings (mkWorld 0 [])
           "80f198ee56343ba864fe8b2a57d3eff7-e457b5a2e4d86bd1-1").
  - vm_compute; reflexivity.
  - discriminate.
Defined.

Lemma header_dict_not_malformed (carrier : HeaderDict.t) :
  carrier !! "b3" = None -> ~ malformed_single_header HeaderDict.get carrier.
Proof.
  intros H (h & Hh & _). unfold first_value, HeaderDict.get in Hh.
  change B3Format.SINGLE_HEADER_KEY with "b3" in Hh. rewrite H in Hh. discriminate Hh.
Qed.

Lemma extract_sampled_iff_witness :
  ~ malformed_single_header HeaderDict.get carrier_debug_flag /\
  exists t s sa fl w1 ctx w2,
    B3Format.read_headers HeaderDict.get carrier_debug_flag (mkWorld 0 [])
      = (Returned (Some (t, s, sa, fl)), w1) /\
    B3Format.extract HeaderDict.get SeqIds.generate_trace_id SeqIds.generate_span_id
      carrier_debug_flag (mkWorld 0 []) = (Returned ctx, w2) /\
    (trace.sampled (trace.get_context ctx) = true <->
     (sampled_indicator t s sa = "1" \/ sampled_indicator t s sa = "True" \/
      sampled_indicator t s sa = "true" \/ sampled_indicator t s sa = "d")
     \/ fl = Some "1").
Proof.
  split; [apply header_dict_not_malformed; vm_compute; reflexivity|].
  apply (extract_sampled_iff HeaderDict.get SeqIds.generate_trace_id
           SeqIds.generate_span_id carrier_debug_flag (mkWorld 0 [])).
  apply header_dict_not_malformed; vm_compute; reflexivity.
Defined.

Lemma extract_empty_single_header_as_absent_witness :
  (exists rest, HeaderDict.get carrier_empty_single_header "b3"
                = Some ([] :: rest)) /\
  B3Format.extract HeaderDict.get SeqIds.generate_trace_id SeqIds.generate_span_id
    carrier_empty_single_header (mkWorld 0 []) =
  B3Format.extract (without_single_header HeaderDict.get)
    SeqIds.generate_trace_id SeqIds.generate_span_id
    carrier_empty_single_header (mkWorld 0 []) /\
  exists hs,
    B3Format.read_headers HeaderDict.get carrier_empty_single_header (mkWorld 0 []) =
    (Returned (Some hs),
     mkWorld 0
       ([] ++ [CallGetter "b3"; CallGetter "x-b3-traceid";
               CallGetter "x-b3-spanid"; CallGetter "x-b3-sampled";
               CallGetter "x-b3-flags"])).
Proof.
  split; [exists []; vm_compute; reflexivity|].
  apply (extract_empty_single_header_as_absent HeaderDict.get SeqIds.generate_trace_id
           SeqIds.generate_span_id carrier_empty_single_header (mkWorld 0 [])).
  right; right. exists []. vm_compute; reflexivity.
Defined.

Lemma inject_extract_round_trip_witness :
  0 < trace.trace_id context_sampled < 2 ^ 128 /\
  0 < trace.span_id context_sampled < 2 ^ 64 /\
  exists carrier w1 ctx w2,
    B3Format.inject HeaderDict.set (∅ : HeaderDict.t)
      (trace.set_span_in_context
         {| trace.get_context := context_sampled; trace.parent := None |})
      (mkWorld 0 [])
      = (Returned carrier, w1) /\
    B3Format.extract HeaderDict.get SeqIds.generate_trace_id SeqIds.generate_span_id
      carrier w1 = (Returned ctx, w2) /\
    trace.trace_id (trace.get_context ctx) = trace.trace_id context_sampled /\
    trace.span_id (trace.get_context ctx) = trace.span_id context_sampled /\
    trace.sampled (trace.get_context ctx) = trace.sampled context_sampled.
Proof.
  split; [split; reflexivity|]. split; [split; reflexivity|].
  apply (inject_extract_round_trip SeqIds.generate_trace_id SeqIds.generate_span_id
           context_sampled (mkWorld 0 []));
    split; reflexivity.
Defined.

(** * Further properties of the module *)

(** ** The identifier codec, beyond the 128 and 64 bits *)

Lemma hex_width_enough n : n < 16 ^ N.of_nat (Py.hex_width n).
Proof.
  unfold Py.hex_width. rewrite N2Nat.id.
  eapply N.lt_le_trans; [apply N.size_gt|].
  change 16 with (2 ^ 4). rewrite <- N.pow_mul_r.
  apply N.pow_le_mono_r; [lia|].
  pose proof (N.Div0.mod_le (N.size n + 3) 4).
  pose proof (N.div_mod (N.size n + 3) 4 ltac:(lia)).
  pose proof (N.mod_lt (N.size n + 3) 4 ltac:(lia)). lia.
Qed.

Lemma hex_width_lower n w : 16 ^ N.of_nat w <= n -> (w < Py.hex_width n)%nat.
Proof.
  intros H. destruct (Nat.lt_ge_cases w (Py.hex_width n)) as [L|L]; [exact L|].
  pose proof (hex_width_enough n) as E.
  assert (16 ^ N.of_nat (Py.hex_width n) <= 16 ^ N.of_nat w)
    by (apply N.pow_le_mono_r; lia).
  lia.
Qed.

Lemma format_0x_length w n :
  length (Py.format_0x w n) = Nat.max w (Nat.max 1 (Py.hex_width n)).
Proof. unfold Py.format_0x. rewrite hex_fixed_length. simpl. lia. Qed.

Lemma format_0x_int16 w n : Py.int16 (Py.format_0x w n) = Some n.
Proof.
  unfold Py.format_0x. apply int16_hex_fixed; [lia|].
  eapply N.lt_le_trans; [apply hex_width_enough|].
  apply N.pow_le_mono_r; lia.
Qed.

(** X1. Formatting never loses an identifier: whatever its size, reading
    the formatted trace id or span id back in base 16 gives the identifier. *)
Theorem format_then_int16 (n : N) :
  Py.int16 (format_trace_id n) = Some n /\ Py.int16 (format_span_id n) = Some n.
Proof. split; apply format_0x_int16. Qed.

Lemma lower_hex_digit_table :
  forallb (fun d => is_lower_hex_digit (Py.hex_char d)) (map N.of_nat (seq 0 16)) = true.
Proof. vm_compute. reflexivity. Qed.

Lemma hex_char_lower d : d < 16 -> is_lower_hex_digit (Py.hex_char d) = true.
Proof.
  intros Hd. pose proof lower_hex_digit_table as T.
  rewrite forallb_forall in T. apply T.
  apply in_map_iff. exists (N.to_nat d). split; [lia|]. apply in_seq. lia.
Qed.

Lemma hex_fixed_all_lower w : forall n acc,
  all_lower_hex acc = true -> all_lower_hex (Py.hex_fixed w n acc) = true.
Proof.
  induction w as [|w IH]; intros n acc Hacc; simpl; [exact Hacc|].
  apply IH. unfold all_lower_hex in *. simpl. rewrite Hacc, andb_true_r.
  apply hex_char_lower. apply N.mod_lt. lia.
Qed.

Lemma format_0x_all_lower w n : all_lower_hex (Py.format_0x w n) = true.
Proof. apply hex_fixed_all_lower. reflexivity. Qed.

Lemma format_0x_all_hex w n : all_hex_chars (Py.format_0x w n) = true.
Proof. apply hex_fixed_all_hex. reflexivity. Qed.

Lemma format_0x_length_iff w n :
  (0 < w)%nat -> length (Py.format_0x w n) = w <-> n < 16 ^ N.of_nat w.
Proof.
  intros Hw. rewrite format_0x_length. split.
  - intros L. destruct (N.lt_ge_cases n (16 ^ N.of_nat w)) as [H|H]; [exact H|].
    apply hex_width_lower in H. lia.
  - intros H. apply hex_width_bound in H. lia.
Qed.

(** X2. Rendering is lower-case hex of at least 32 (trace id) and 16 (span
    id) characters, and of exactly that width precisely for identifiers
    below 2^128 and 2^64: the format pads, it never truncates. *)
Theorem format_width_and_case (n : N) :
  all_lower_hex (format_trace_id n) = true /\
  all_lower_hex (format_span_id n) = true /\
  (32 <= length (format_trace_id n))%nat /\
  (16 <= length (format_span_id n))%nat /\
  (length (format_trace_id n) = 32%nat <-> n < 2 ^ 128) /\
  (length (format_span_id n) = 16%nat <-> n < 2 ^ 64).
Proof.
  unfold format_trace_id, format_span_id.
  split; [apply format_0x_all_lower|]. split; [apply format_0x_all_lower|].
  split; [rewrite format_0x_length; lia|].
  split; [rewrite format_0x_length; lia|].
  split.
  - apply (format_0x_length_iff 32 n). lia.
  - apply (format_0x_length_iff 16 n). lia.
Qed.

(** X3. What [inject] writes for an identifier passes the validation of
    [extract] exactly when the identifier is in range: a formatted trace id
    matches the trace id pattern iff it is below 2^128, a formatted span id
    the span id pattern iff it is below 2^64. *)
Theorem formatted_id_valid_iff_in_range (n : N) :
  Re.fullmatch B3Format._trace_id_regex (format_trace_id n) = (n <? 2 ^ 128) /\
  Re.fullmatch B3Format._span_id_regex (format_span_id n) = (n <? 2 ^ 64).
Proof.
  split.
  - rewrite trace_id_regex_spec. unfold accepts_trace_id, format_trace_id.
    rewrite format_0x_all_hex. cbn [andb].
    pose proof (format_0x_length_iff 32 n ltac:(lia)) as L.
    pose proof (format_0x_length 32 n) as M.
    destruct (N.ltb_spec n (2 ^ 128)) as [H|H].
    + rewrite (proj2 L H). reflexivity.
    + apply orb_false_iff. split; apply Nat.eqb_neq.
      * lia.
      * intros E. apply L in E. apply N.lt_nge in E. apply E. exact H.
  - rewrite span_id_regex_spec. unfold accepts_span_id, format_span_id.
    rewrite format_0x_all_hex. cbn [andb].
    pose proof (format_0x_length_iff 16 n ltac:(lia)) as L.
    destruct (N.ltb_spec n (2 ^ 64)) as [H|H].
    + rewrite (proj2 L H). reflexivity.
    + apply Nat.eqb_neq. intros E. apply L in E. apply N.lt_nge in E. apply E. exact H.
Qed.

(** ** Decoding, and encoding again *)

Lemma hex_value_lt c d : Py.hex_value c = Some d -> d < 16.
Proof.
  unfold Py.hex_value. destruct (Py.decimal c) as [d'|] eqn:D.
  - intros [= <-]. apply decimal_lt in D. lia.
  - destruct ((97 <=? c) && (c <=? 102)) eqn:A.
    + intros [= <-]. apply andb_true_iff in A as [A1 A2].
      apply N.leb_le in A1. apply N.leb_le in A2. lia.
    + destruct ((65 <=? c) && (c <=? 70)) eqn:B; [|discriminate].
      intros [= <-]. apply andb_true_iff in B as [B1 B2].
      apply N.leb_le in B1. apply N.leb_le in B2. lia.
Qed.

Lemma lower_hex_digit_inv c :
  is_lower_hex_digit c = true ->
  exists d, Py.hex_value c = Some d /\ Py.hex_char d = c.
Proof.
  unfold is_lower_hex_digit. cbn [existsb]. intros H.
  repeat (apply orb_true_iff in H as [H|H]); try discriminate H;
    apply N.eqb_eq in H; subst c; eexists; split; reflexivity.
Qed.

Lemma lower_hex_digit_is_hex c :
  is_lower_hex_digit c = true -> is_hex_char c = true.
Proof.
  unfold is_lower_hex_digit. cbn [existsb]. intros H.
  repeat (apply orb_true_iff in H as [H|H]); try discriminate H;
    apply N.eqb_eq in H; subst c; reflexivity.
Qed.

Lemma all_lower_hex_all_hex s : all_lower_hex s = true -> all_hex_chars s = true.
Proof.
  unfold all_lower_hex, all_hex_chars.
  induction s as [|c l IH]; simpl; [reflexivity|].
  intros [Hc Hl]%andb_true_iff.
  rewrite (lower_hex_digit_is_hex c Hc). simpl. apply IH, Hl.
Qed.

Lemma int_digits_bounds s : forall a n,
  Py.int_digits a s = Some n ->
  a * 16 ^ N.of_nat (length s) <= n < (a + 1) * 16 ^ N.of_nat (length s).
Proof.
  induction s as [|c s IH]; intros a n H.
  - simpl in H. injection H as <-. simpl. lia.
  - cbn [Py.int_digits] in H.
    destruct (Py.hex_value c) as [d|] eqn:V; [|discriminate H].
    apply hex_value_lt in V. apply IH in H.
    cbn [length]. rewrite Nat2N.inj_succ, N.pow_succ_r'.
    assert (16 ^ N.of_nat (length s) <> 0) by (apply N.pow_nonzero; lia).
    nia.
Qed.

Lemma int16_bound s n :
  Py.int16 s = Some n -> n < 16 ^ N.of_nat (length s).
Proof.
  intros H. destruct s as [|c s]; [discriminate H|].
  apply int_digits_bounds in H. lia.
Qed.

Lemma int_digits_inj_lower s1 : forall s2 a1 a2 n,
  all_lower_hex s1 = true -> all_lower_hex s2 = true ->
  length s1 = length s2 ->
  Py.int_digits a1 s1 = Some n -> Py.int_digits a2 s2 = Some n ->
  a1 = a2 /\ s1 = s2.
Proof.
  induction s1 as [|c1 s1 IH]; intros [|c2 s2] a1 a2 n L1 L2 Len H1 H2;
    try discriminate Len.
  - simpl in H1, H2. split; congruence.
  - unfold all_lower_hex in L1, L2. simpl in L1, L2.
    apply andb_true_iff in L1 as [C1 L1]. apply andb_true_iff in L2 as [C2 L2].
    destruct (lower_hex_digit_inv c1 C1) as (d1 & V1 & <-).
    destruct (lower_hex_digit_inv c2 C2) as (d2 & V2 & <-).
    cbn [Py.int_digits] in H1, H2. rewrite V1 in H1. rewrite V2 in H2.
    injection Len as Len.
    destruct (IH s2 _ _ n L1 L2 Len H1 H2) as [E ->].
    apply hex_value_lt in V1. apply hex_value_lt in V2.
    assert (a1 = a2) by lia. assert (d1 = d2) by lia. subst. split; reflexivity.
Qed.

Lemma int16_inj_lower s1 s2 n :
  all_lower_hex s1 = true -> all_lower_hex s2 = true ->
  length s1 = length s2 ->
  Py.int16 s1 = Some n -> Py.int16 s2 = Some n -> s1 = s2.
Proof.
  intros L1 L2 Len H1 H2.
  destruct s1 as [|c1 s1]; [discriminate H1|].
  destruct s2 as [|c2 s2]; [discriminate H2|].
  apply (int_digits_inj_lower _ _ 0 0 n L1 L2 Len H1 H2).
Qed.

Lemma format_0x_of_int16 w s n :
  (0 < w)%nat -> all_lower_hex s = true -> length s = w ->
  Py.int16 s = Some n -> Py.format_0x w n = s.
Proof.
  intros Hw L Len H.
  pose proof (int16_bound s n H) as B. rewrite Len in B.
  apply (int16_inj_lower _ _ n).
  - apply format_0x_all_lower.
  - exact L.
  - rewrite Len. apply format_0x_length_iff; assumption.
  - apply format_0x_int16.
  - exact H.
Qed.

(** X4. Decoding and encoding again gives the header back: a lower-case
    string of 32 hex digits is the formatted trace id of the number
    [extract] reads from it, one of 16 digits is the formatted span id of
    its number, and as a trace id it comes back with 16 zeros in front. *)
Theorem int16_then_format (s : str) :
  all_lower_hex s = true ->
  (length s = 32%nat ->
   exists n, Py.int16 s = Some n /\ format_trace_id n = s) /\
  (length s = 16%nat ->
   exists n, Py.int16 s = Some n /\ format_span_id n = s /\
             format_trace_id n = "0000000000000000" ++ s).
Proof.
  intros L.
  assert (I : s <> [] -> is_Some (Py.int16 s))
    by (apply int16_all_hex, all_lower_hex_all_hex, L).
  split; intros Len.
  - destruct I as [n Hn]; [intros ->; discriminate Len|].
    exists n. split; [exact Hn|].
    apply format_0x_of_int16; [lia | exact L | exact Len | exact Hn].
  - destruct I as [n Hn]; [intros ->; discriminate Len|].
    exists n. split; [exact Hn|]. split.
    + apply format_0x_of_int16; [lia | exact L | exact Len | exact Hn].
    + apply format_0x_of_int16.
      * lia.
      * unfold all_lower_hex in *. rewrite forallb_app, L. reflexivity.
      * rewrite length_app, Len. reflexivity.
      * destruct s as [|c s]; [discriminate Len|]. exact Hn.
Qed.

Lemma int16_then_format_witness :
  all_lower_hex "a2fb4a1d1a96d312" = true /\
  (length "a2fb4a1d1a96d312" = 32%nat ->
   exists n, Py.int16 "a2fb4a1d1a96d312" = Some n /\ format_trace_id n = "a2fb4a1d1a96d312") /\
  (length "a2fb4a1d1a96d312" = 16%nat ->
   exists n, Py.int16 "a2fb4a1d1a96d312" = Some n /\
             format_span_id n = "a2fb4a1d1a96d312" /\
             format_trace_id n = "0000000000000000" ++ "a2fb4a1d1a96d312").
Proof.
  split; [reflexivity|]. apply (int16_then_format "a2fb4a1d1a96d312"). reflexivity.
Defined.

(** ** Splitting the combined header *)

Lemma split_no_sep sep s : forall n,
  count_char sep s = O -> Py.split sep n s = [s].
Proof.
  induction s as [|c s IH]; intros n H; [reflexivity|].
  cbn [count_char] in H. destruct n as [|n]; [reflexivity|].
  cbn [Py.split]. destruct (N.eqb c sep); [discriminate H|].
  rewrite IH by exact H. reflexivity.
Qed.

Lemma split_field sep t : forall n rest,
  count_char sep t = O ->
  Py.split sep (S n) (t ++ sep :: rest) = t :: Py.split sep n rest.
Proof.
  induction t as [|c t IH]; intros n rest H.
  - cbn [app Py.split]. rewrite N.eqb_refl. reflexivity.
  - cbn [count_char] in H. cbn [app Py.split].
    destruct (N.eqb c sep); [discriminate H|].
    rewrite IH by exact H. reflexivity.
Qed.

Lemma split_length sep s : forall n,
  length (Py.split sep n s) = S (Nat.min n (count_char sep s)).
Proof.
  induction s as [|c s IH]; intros n.
  - simpl. rewrite Nat.min_0_r. reflexivity.
  - destruct n as [|n]; [reflexivity|].
    cbn [Py.split count_char]. destruct (N.eqb c sep).
    + cbn [length]. rewrite IH. reflexivity.
    + specialize (IH (S n)).
      destruct (Py.split sep (S n) s) as [|f fs]; [discriminate IH|].
      cbn [length] in *. rewrite IH. reflexivity.
Qed.

Lemma hex_digit_not_dash c :
  is_hex_char c = true -> N.eqb c (Py.ord "-") = false.
Proof.
  intros H. destruct (N.eqb_spec c (Py.ord "-")) as [->|_]; [|reflexivity].
  vm_compute in H. discriminate H.
Qed.

Lemma all_hex_no_dash s : all_hex_chars s = true -> count_char (Py.ord "-") s = O.
Proof.
  unfold all_hex_chars. induction s as [|c s IH]; [reflexivity|].
  cbn [forallb count_char]. intros [Hc Hs]%andb_true_iff.
  rewrite (hex_digit_not_dash c Hc). apply IH, Hs.
Qed.

Lemma trace_id_no_dash t :
  Re.fullmatch B3Format._trace_id_regex t = true -> count_char (Py.ord "-") t = O.
Proof.
  rewrite trace_id_regex_spec. unfold accepts_trace_id.
  intros [H _]%andb_true_iff. apply all_hex_no_dash, H.
Qed.

Lemma span_id_no_dash s :
  Re.fullmatch B3Format._span_id_regex s = true -> count_char (Py.ord "-") s = O.
Proof.
  rewrite span_id_regex_spec. unfold accepts_span_id.
  intros [H _]%andb_true_iff. apply all_hex_no_dash, H.
Qed.

Lemma append_dash_nonempty t r : t ++ "-" ++ r <> [].
Proof. destruct t; discriminate. Qed.

Lemma split_dash_field t n rest :
  count_char (Py.ord "-") t = O ->
  Py.split (Py.ord "-") (S n) (t ++ "-" ++ rest) = t :: Py.split (Py.ord "-") n rest.
Proof. apply (split_field (Py.ord "-") t n rest). Qed.

(** ** More on [extract] *)

Lemma or_str_falsy x d : Py.truthy x = false -> Py.or_str x d = d.
Proof. destruct x as [[|c s]|]; simpl; [reflexivity | discriminate | reflexivity]. Qed.

Lemma or_opt_falsy x : Py.truthy x = false -> Py.or_opt x None = None.
Proof. destruct x as [[|c s]|]; simpl; [reflexivity | discriminate | reflexivity]. Qed.

Section ExtractMore.

Context {Carrier G : Type}.
Variable get_from_carrier : Carrier -> str -> option (list str).
Variable generate_trace_id : G -> N * G.
Variable generate_span_id : G -> N * G.

Local Abbreviation read_headers := (B3Format.read_headers (G := G) get_from_carrier).
Local Abbreviation extract :=
  (B3Format.extract get_from_carrier generate_trace_id generate_span_id).
Local Abbreviation first := (first_value get_from_carrier).

(** What [extract] does once the headers are read: nothing more, or the
    two calls to the generator; identifiers that do not come from the
    generator are in range. *)
Lemma extract_tail carrier (w w1 : World G) hs :
  read_headers carrier w = (Returned hs, w1) ->
  exists ctx g' gens,
    extract carrier w = (Returned ctx, mkWorld g' (calls w1 ++ gens)) /\
    ((gens = [] /\ g' = generator w1 /\
      trace.trace_id (trace.get_context ctx) < 2 ^ 128 /\
      trace.span_id (trace.get_context ctx) < 2 ^ 64) \/
     (gens = [CallGenerateTraceId; CallGenerateSpanId] /\
      g' = (generate_span_id (generate_trace_id (generator w1)).2).2)).
Proof.
  intros H. destruct hs as [[[[t s] sa] fl]|].
  - destruct (Re.fullmatch B3Format._trace_id_regex t
              && Re.fullmatch B3Format._span_id_regex s) eqn:V.
    + apply andb_true_iff in V as [Vt Vs].
      destruct (extract_decoded _ generate_trace_id generate_span_id
                  _ _ _ _ _ _ _ H Vt Vs) as (a & b & Ha & Hb & E).
      exists (remote_span a b (options_of sa fl)), (generator w1), [].
      rewrite app_nil_r. destruct w1 as [g1 c1]. split; [exact E|].
      left. split; [reflexivity|]. split; [reflexivity|].
      apply int16_bound in Ha. apply int16_bound in Hb.
      rewrite trace_id_regex_spec in Vt. rewrite span_id_regex_spec in Vs.
      unfold accepts_trace_id in Vt. unfold accepts_span_id in Vs.
      apply andb_true_iff in Vt as [_ Lt]. apply andb_true_iff in Vs as [_ Ls].
      apply Nat.eqb_eq in Ls. rewrite Ls in Hb. cbn [trace.get_context remote_span
        trace.set_span_in_context trace.DefaultSpan trace.trace_id trace.span_id].
      split; [|exact Hb].
      apply orb_true_iff in Lt as [Lt|Lt]; apply Nat.eqb_eq in Lt; rewrite Lt in Ha.
      * eapply N.lt_trans; [exact Ha | reflexivity].
      * exact Ha.
    + eexists _, _, _. split.
      * apply (extract_generated _ generate_trace_id generate_span_id
                 _ _ _ _ _ _ _ H V).
      * right. split; reflexivity.
  - exists (trace.set_span_in_context trace.INVALID_SPAN), (generator w1), [].
    rewrite app_nil_r. destruct w1 as [g1 c1]. split.
    + apply extract_short_circuit, H.
    + left. repeat split.
Qed.

(** X5. [extract] always returns a context, it never raises. On the way it
    asks the getter either for the combined header alone or for the five
    headers b3, x-b3-traceid, x-b3-spanid, x-b3-sampled, x-b3-flags in that
    order (never for x-b3-parentspanid), calls the setter never, and calls
    the generator either not at all or once for a trace id and then once
    for a span id. *)
Theorem extract_returns_and_calls carrier (w : World G) :
  exists ctx g' reads gens,
    extract carrier w = (Returned ctx, mkWorld g' (calls w ++ reads ++ gens)) /\
    (reads = [CallGetter "b3"] \/
     reads = [CallGetter "b3"; CallGetter "x-b3-traceid"; CallGetter "x-b3-spanid";
              CallGetter "x-b3-sampled"; CallGetter "x-b3-flags"]) /\
    ((gens = [] /\ g' = generator w) \/
     (gens = [CallGenerateTraceId; CallGenerateSpanId] /\
      g' = (generate_span_id (generate_trace_id (generator w)).2).2)).
Proof.
  destruct (Py.truthy (first carrier B3Format.SINGLE_HEADER_KEY)) eqn:T.
  - destruct (first carrier B3Format.SINGLE_HEADER_KEY) as [[|c h]|] eqn:E;
      try discriminate T.
    pose proof (read_headers_single get_from_carrier carrier w _ E ltac:(discriminate)) as R.
    destruct (extract_tail carrier w _ _ R) as (ctx & g' & gens & X & Hg).
    exists ctx, g', [CallGetter "b3"], gens. split.
    + rewrite X. unfold logged; cbn [generator calls]. rewrite <- app_assoc. reflexivity.
    + split; [left; reflexivity|].
      destruct Hg as [(-> & -> & _)|(-> & ->)]; [left | right]; split; reflexivity.
  - pose proof (read_headers_discrete get_from_carrier carrier w T) as R.
    destruct (extract_tail carrier w _ _ R) as (ctx & g' & gens & X & Hg).
    eexists ctx, g', _, gens. split.
    + rewrite X. unfold logged; cbn [generator calls]. rewrite <- app_assoc. reflexivity.
    + split; [right; reflexivity|].
      destruct Hg as [(-> & -> & _)|(-> & ->)]; [left | right]; split; reflexivity.
Qed.

(** X6. Identifiers that [extract] did not take from the generator fit
    their width: if the generator was not called, the trace id of the
    context is below 2^128 and its span id below 2^64. *)
Theorem extract_ids_in_range carrier (w : World G) :
  exists ctx g' l,
    extract carrier w = (Returned ctx, mkWorld g' (calls w ++ l)) /\
    (In CallGenerateTraceId l \/
     (trace.trace_id (trace.get_context ctx) < 2 ^ 128 /\
      trace.span_id (trace.get_context ctx) < 2 ^ 64)).
Proof.
  destruct (read_headers_cases get_from_carrier carrier w)
    as [[_ R]|(_ & t & s & sa & fl & l & R & _)];
    destruct (extract_tail carrier w _ _ R) as (ctx & g' & gens & X & Hg);
    eexists ctx, g', _; (split;
      [rewrite X; unfold logged; cbn [generator calls]; rewrite <- app_assoc; reflexivity|]);
    (destruct Hg as [(_ & _ & B)|(-> & _)];
      [right; exact B | left; apply in_or_app; right; left; reflexivity]).
Qed.

End ExtractMore.

(** ** [extract], header by header *)

Section ExtractHeaders.

Context {Carrier G : Type}.
Variable get_from_carrier : Carrier -> str -> option (list str).
Variable generate_trace_id : G -> N * G.
Variable generate_span_id : G -> N * G.

Local Abbreviation read_headers := (B3Format.read_headers (G := G) get_from_carrier).
Local Abbreviation extract :=
  (B3Format.extract get_from_carrier generate_trace_id generate_span_id).
Local Abbreviation first := (first_value get_from_carrier).

(** The default identifier strings decode to the sentinel. *)
Lemma extract_defaults carrier (w w1 : World G) sa fl :
  read_headers carrier w =
    (Returned (Some (format_trace_id trace.INVALID_TRACE_ID,
                     format_span_id trace.INVALID_SPAN_ID, sa, fl)), w1) ->
  extract carrier w = (Returned (remote_span 0 0 (options_of sa fl)), w1).
Proof.
  intros R.
  destruct (format_trace_id_valid 0 ltac:(reflexivity)) as [Vt It].
  destruct (format_span_id_valid 0 ltac:(reflexivity)) as [Vs Is].
  destruct (extract_decoded _ generate_trace_id generate_span_id
              _ _ _ _ _ _ _ R Vt Vs) as (a & b & Ha & Hb & E).
  unfold trace.INVALID_TRACE_ID in Ha. unfold trace.INVALID_SPAN_ID in Hb.
  rewrite It in Ha. rewrite Is in Hb. injection Ha as <-. injection Hb as <-.
  exact E.
Qed.

(** X7. A carrier that gives no usable value for any of the five headers
    (nothing, or an empty first value) yields the identifiers 0 and 0, not
    sampled, after the five reads and without a call to the generator. *)
Theorem extract_without_headers carrier (w : World G) :
  (forall key, In key ["b3"; "x-b3-traceid"; "x-b3-spanid"; "x-b3-sampled"; "x-b3-flags"] ->
               Py.truthy (first carrier key) = false) ->
  exists ctx,
    extract carrier w =
      (Returned ctx,
       mkWorld (generator w)
         (calls w ++ [CallGetter "b3"; CallGetter "x-b3-traceid";
                      CallGetter "x-b3-spanid"; CallGetter "x-b3-sampled";
                      CallGetter "x-b3-flags"])) /\
    trace.trace_id (trace.get_context ctx) = 0 /\
    trace.span_id (trace.get_context ctx) = 0 /\
    trace.sampled (trace.get_context ctx) = false.
Proof.
  intros H.
  assert (R := read_headers_discrete get_from_carrier carrier w
                 (H "b3" ltac:(simpl; auto))).
  rewrite !or_str_falsy, or_opt_falsy in R
    by (apply H; simpl; auto 6).
  exists (remote_span 0 0 (options_of "0" None)).
  split; [apply (extract_defaults _ _ _ _ _ R)|]. repeat split.
Qed.

(** X8. A combined header without a separator is a sampling decision and
    nothing else: the identifiers are 0 and 0, the generator is not called,
    and the context is sampled exactly when the header is one of "1",
    "True", "true", "d". *)
Theorem extract_sampling_only_header carrier (w : World G) h :
  first carrier "b3" = Some h ->
  h <> [] ->
  count_char (Py.ord "-") h = O ->
  exists ctx,
    extract carrier w =
      (Returned ctx, mkWorld (generator w) (calls w ++ [CallGetter "b3"])) /\
    trace.trace_id (trace.get_context ctx) = 0 /\
    trace.span_id (trace.get_context ctx) = 0 /\
    (trace.sampled (trace.get_context ctx) = true <->
     h = "1" \/ h = "True" \/ h = "true" \/ h = "d").
Proof.
  intros E Hne Hc.
  pose proof (read_headers_single get_from_carrier carrier w h E Hne) as R.
  rewrite (split_no_sep (Py.ord "-") h 4 Hc) in R.
  exists (remote_span 0 0 (options_of h None)).
  split; [apply (extract_defaults _ _ _ _ _ R)|].
  split; [reflexivity|]. split; [reflexivity|].
  rewrite sampled_remote_span, orb_false_r. apply propagates_iff.
Qed.

(** X9. A combined header of two well-formed identifiers and no sampling
    field gives those identifiers, sampled, with one read and no call to
    the generator. *)
Theorem extract_two_fields_sampled carrier (w : World G) t s :
  first carrier "b3" = Some (t ++ "-" ++ s) ->
  Re.fullmatch B3Format._trace_id_regex t = true ->
  Re.fullmatch B3Format._span_id_regex s = true ->
  exists a b ctx,
    Py.int16 t = Some a /\ Py.int16 s = Some b /\
    extract carrier w =
      (Returned ctx, mkWorld (generator w) (calls w ++ [CallGetter "b3"])) /\
    trace.trace_id (trace.get_context ctx) = a /\
    trace.span_id (trace.get_context ctx) = b /\
    trace.sampled (trace.get_context ctx) = true.
Proof.
  intros E Vt Vs.
  pose proof (read_headers_single get_from_carrier carrier w _ E
                (append_dash_nonempty t s)) as R.
  rewrite (split_dash_field t 3 s (trace_id_no_dash t Vt)) in R.
  rewrite (split_no_sep (Py.ord "-") s 3 (span_id_no_dash s Vs)) in R.
  destruct (extract_decoded _ generate_trace_id generate_span_id
              _ _ _ _ _ _ _ R Vt Vs) as (a & b & Ha & Hb & X).
  exists a, b, (remote_span a b (options_of "1" None)).
  repeat split; assumption.
Qed.

(** X10. In a combined header the number of separators decides: with four
    or more, [extract] returns the invalid sentinel span after the one
    read; with fewer, the header resolves to identifier and sampling
    strings. *)
Theorem extract_malformed_iff_four_separators carrier (w : World G) h :
  first carrier "b3" = Some h ->
  h <> [] ->
  ((4 <= count_char (Py.ord "-") h)%nat ->
   extract carrier w =
     (Returned (trace.set_span_in_context trace.INVALID_SPAN),
      mkWorld (generator w) (calls w ++ [CallGetter "b3"]))) /\
  ((count_char (Py.ord "-") h < 4)%nat ->
   exists hs, read_headers carrier w =
                (Returned (Some hs),
                 mkWorld (generator w) (calls w ++ [CallGetter "b3"]))).
Proof.
  intros E Hne.
  pose proof (read_headers_single get_from_carrier carrier w h E Hne) as R.
  pose proof (split_length (Py.ord "-") h 4) as L.
  destruct (Py.split (Py.ord "-") 4 h) as [|f0 [|f1 [|f2 [|f3 [|f4 l]]]]];
    cbn [length] in L; split; intros C;
    solve [ lia
          | apply extract_short_circuit; exact R
          | eexists; exact R ].
Qed.

End ExtractHeaders.

(** X11. The parent span id of a combined header is dropped: a header
    trace-span-sampled-parent gives what the header trace-span-sampled
    gives, whatever (separator-free) parent field it ends with. *)
Theorem extract_ignores_parent_field {C1 C2 G : Type}
    (get1 : C1 -> str -> option (list str))
    (get2 : C2 -> str -> option (list str))
    (generate_trace_id generate_span_id : G -> N * G)
    (c1 : C1) (c2 : C2) (w : World G) (t s sa p : str) :
  count_char (Py.ord "-") t = O -> count_char (Py.ord "-") s = O ->
  count_char (Py.ord "-") sa = O -> count_char (Py.ord "-") p = O ->
  first_value get1 c1 "b3" = Some (t ++ "-" ++ s ++ "-" ++ sa ++ "-" ++ p) ->
  first_value get2 c2 "b3" = Some (t ++ "-" ++ s ++ "-" ++ sa) ->
  B3Format.extract get1 generate_trace_id generate_span_id c1 w =
  B3Format.extract get2 generate_trace_id generate_span_id c2 w.
Proof.
  intros Ht Hs Hsa Hp E1 E2. apply extract_ext.
  rewrite (read_headers_single get1 c1 w _ E1 (append_dash_nonempty _ _)).
  rewrite (read_headers_single get2 c2 w _ E2 (append_dash_nonempty _ _)).
  rewrite !(split_dash_field t) by exact Ht.
  rewrite !(split_dash_field s) by exact Hs.
  rewrite (split_dash_field sa) by exact Hsa.
  rewrite (split_no_sep (Py.ord "-") sa) by exact Hsa.
  rewrite (split_no_sep (Py.ord "-") p) by exact Hp.
  reflexivity.
Qed.

(** X12. Only the first value under each of the five headers counts: two
    carriers (and getters) that agree on those first values give the same
    outcome, whatever else they hold. *)
Theorem extract_first_values_only {C1 C2 G : Type}
    (get1 : C1 -> str -> option (list str))
    (get2 : C2 -> str -> option (list str))
    (generate_trace_id generate_span_id : G -> N * G)
    (c1 : C1) (c2 : C2) (w : World G) :
  (forall key, In key ["b3"; "x-b3-traceid"; "x-b3-spanid"; "x-b3-sampled"; "x-b3-flags"] ->
               first_value get1 c1 key = first_value get2 c2 key) ->
  B3Format.extract get1 generate_trace_id generate_span_id c1 w =
  B3Format.extract get2 generate_trace_id generate_span_id c2 w.
Proof.
  intros H. apply extract_ext.
  assert (Hb : first_value get1 c1 B3Format.SINGLE_HEADER_KEY =
               first_value get2 c2 B3Format.SINGLE_HEADER_KEY)
    by (apply H; simpl; auto).
  destruct (Py.truthy (first_value get1 c1 B3Format.SINGLE_HEADER_KEY)) eqn:T.
  - destruct (first_value get1 c1 B3Format.SINGLE_HEADER_KEY) as [[|c h]|] eqn:E;
      try discriminate T.
    rewrite (read_headers_single get1 c1 w _ E ltac:(discriminate)).
    rewrite (read_headers_single get2 c2 w (c :: h));
      [reflexivity | congruence | discriminate].
  - rewrite (read_headers_discrete get1 c1 w T).
    rewrite (read_headers_discrete get2 c2 w) by (rewrite <- Hb; exact T).
    unfold B3Format.TRACE_ID_KEY, B3Format.SPAN_ID_KEY, B3Format.SAMPLED_KEY,
      B3Format.FLAGS_KEY.
    rewrite !H by (simpl; auto 6). reflexivity.
Qed.

(** ** More on [inject] *)

Lemma inject_cases {Carrier G : Type}
    (set_in_carrier : Carrier -> str -> str -> Carrier)
    carrier span (w : World G) :
  B3Format.inject set_in_carrier carrier span w = (Returned carrier, w) \/
  B3Format.inject set_in_carrier carrier span w =
    (Returned (apply_writes set_in_carrier carrier (header_writes span)),
     logged w (header_writes span)).
Proof.
  destruct (trace.is_invalid (trace.get_context span)) eqn:V.
  - left. unfold B3Format.inject, trace.get_current_span. rewrite V. reflexivity.
  - right. apply inject_valid, V.
Qed.

(** X13. [inject] touches its own headers only: in a header dictionary
    every key other than x-b3-traceid, x-b3-spanid and x-b3-sampled keeps
    its values, and so does x-b3-parentspanid when the span has no parent
    (a parent header left in the carrier stays there). *)
Theorem inject_leaves_other_headers {G : Type}
    (carrier : HeaderDict.t) span (w : World G) (key : str) :
  key <> "x-b3-traceid" -> key <> "x-b3-spanid" -> key <> "x-b3-sampled" ->
  key <> "x-b3-parentspanid" \/ trace.parent span = None ->
  exists carrier' w',
    B3Format.inject HeaderDict.set carrier span w = (Returned carrier', w') /\
    carrier' !! key = carrier !! key.
Proof.
  intros Kt Ks Ka Kp.
  destruct (inject_cases HeaderDict.set carrier span w) as [E|E];
    rewrite E; eexists _, _; (split; [reflexivity|]); [reflexivity|].
  unfold header_writes, HeaderDict.set, B3Format.TRACE_ID_KEY, B3Format.SPAN_ID_KEY,
    B3Format.SAMPLED_KEY, B3Format.PARENT_SPAN_ID_KEY.
  destruct (trace.parent span) as [p|]; cbn [app apply_writes fold_left].
  - destruct Kp as [Kp|Kp]; [|discriminate Kp].
    rewrite !lookup_insert_ne by congruence. reflexivity.
  - rewrite !lookup_insert_ne by congruence. reflexivity.
Qed.

(** X14. Injecting the same span twice leaves the header dictionary as
    the first injection left it. *)
Theorem inject_twice {G : Type} (carrier : HeaderDict.t) span (w : World G) :
  exists carrier1 w1 w2,
    B3Format.inject HeaderDict.set carrier span w = (Returned carrier1, w1) /\
    B3Format.inject HeaderDict.set carrier1 span w1 = (Returned carrier1, w2).
Proof.
  destruct (trace.is_invalid (trace.get_context span)) eqn:V.
  - exists carrier, w, w.
    unfold B3Format.inject, trace.get_current_span. rewrite V. split; reflexivity.
  - eexists _, _, _. rewrite !(inject_valid _ _ _ _ V). split; [reflexivity|].
    f_equal. f_equal.
    unfold header_writes, HeaderDict.set, B3Format.TRACE_ID_KEY, B3Format.SPAN_ID_KEY,
      B3Format.SAMPLED_KEY, B3Format.PARENT_SPAN_ID_KEY.
    destruct (trace.parent span) as [p|]; cbn [app apply_writes fold_left];
      apply map_eq; intros k; rewrite !lookup_insert;
      repeat case_decide; congruence.
Qed.

(** X15. The round trip does not need an empty carrier, nor a span without
    parent: for identifiers in range, [inject] into any header dictionary
    without a usable combined header and then [extract] gives the trace id
    and the span id back; the sampled flag comes back too, except that an
    x-b3-flags header "1" left in the carrier makes the context sampled. *)
Theorem inject_extract_round_trip_into {G : Type}
    (generate_trace_id generate_span_id : G -> N * G)
    (carrier0 : HeaderDict.t) (span : trace.Span) (w : World G) :
  Py.truthy (first_value HeaderDict.get carrier0 "b3") = false ->
  0 < trace.trace_id (trace.get_context span) < 2 ^ 128 ->
  0 < trace.span_id (trace.get_context span) < 2 ^ 64 ->
  exists carrier w1 ctx w2,
    B3Format.inject HeaderDict.set carrier0 (trace.set_span_in_context span) w
      = (Returned carrier, w1) /\
    B3Format.extract HeaderDict.get generate_trace_id generate_span_id carrier w1
      = (Returned ctx, w2) /\
    trace.trace_id (trace.get_context ctx) = trace.trace_id (trace.get_context span) /\
    trace.span_id (trace.get_context ctx) = trace.span_id (trace.get_context span) /\
    trace.sampled (trace.get_context ctx) =
      trace.sampled (trace.get_context span)
      || B3Format.flags_set (first_value HeaderDict.get carrier0 "x-b3-flags").
Proof.
  intros Hb [Ht0 Ht] [Hs0 Hs].
  set (c := trace.get_context span) in *.
  assert (Hv : trace.is_invalid (trace.get_context span) = false).
  { unfold trace.is_invalid, trace.INVALID_TRACE_ID. fold c.
    replace (trace.trace_id c =? 0) with false by (symmetry; apply N.eqb_neq; lia).
    reflexivity. }
  destruct (format_trace_id_valid _ Ht) as [Vt It].
  destruct (format_span_id_valid _ Hs) as [Vs Is].
  eexists _, _. unfold trace.set_span_in_context at 1.
  rewrite (inject_valid HeaderDict.set carrier0 span w Hv).
  set (carrier := apply_writes HeaderDict.set carrier0 (header_writes span)).
  set (ft := format_trace_id (trace.trace_id c)) in *.
  set (fs := format_span_id (trace.span_id c)) in *.
  set (sa := if trace.sampled c then "1" else "0").
  assert (K : forall key,
             first_value HeaderDict.get carrier key =
             if decide (key = "x-b3-sampled") then Some sa
             else if decide (key = "x-b3-parentspanid") then
                    match trace.parent span with
                    | Some p => Some (format_span_id (trace.span_id p))
                    | None => first_value HeaderDict.get carrier0 key
                    end
             else if decide (key = "x-b3-spanid") then Some fs
             else if decide (key = "x-b3-traceid") then Some ft
             else first_value HeaderDict.get carrier0 key).
  { intros key. unfold carrier, header_writes, first_value, HeaderDict.get, HeaderDict.set,
      B3Format.TRACE_ID_KEY, B3Format.SPAN_ID_KEY, B3Format.SAMPLED_KEY,
      B3Format.PARENT_SPAN_ID_KEY.
    fold c. fold ft fs sa.
    destruct (trace.parent span) as [p|]; cbn [app apply_writes fold_left];
      rewrite !lookup_insert; repeat case_decide; subst; try reflexivity; congruence. }
  set (w1 := logged w _).
  assert (R : B3Format.read_headers HeaderDict.get carrier w1 =
              (Returned (Some (ft, fs, sa,
                               Py.or_opt (first_value HeaderDict.get carrier0 "x-b3-flags") None)),
               logged w1 [CallGetter B3Format.SINGLE_HEADER_KEY;
                          CallGetter B3Format.TRACE_ID_KEY;
                          CallGetter B3Format.SPAN_ID_KEY;
                          CallGetter B3Format.SAMPLED_KEY;
                          CallGetter B3Format.FLAGS_KEY])).
  { rewrite read_headers_discrete by (rewrite K; exact Hb).
    rewrite !K. cbn [decide].
    unfold B3Format.TRACE_ID_KEY, B3Format.SPAN_ID_KEY, B3Format.SAMPLED_KEY,
      B3Format.FLAGS_KEY.
    repeat case_decide; try (exfalso; congruence).
    rewrite (or_str_nonempty ft) by (apply fullmatch_nonempty_trace, Vt).
    rewrite (or_str_nonempty fs) by (apply fullmatch_nonempty_span, Vs).
    rewrite (or_str_nonempty sa) by (unfold sa; destruct (trace.sampled c); discriminate).
    reflexivity. }
  destruct (extract_decoded _ generate_trace_id generate_span_id
              _ _ _ _ _ _ _ R Vt Vs) as (a & b & Ha & Hb' & E).
  eexists _, _. split; [reflexivity|]. split; [exact E|].
  rewrite It in Ha. rewrite Is in Hb'. injection Ha as <-. injection Hb' as <-.
  split; [reflexivity|]. split; [reflexivity|].
  rewrite sampled_remote_span. unfold sa.
  f_equal.
  - destruct (trace.sampled c); reflexivity.
  - destruct (first_value HeaderDict.get carrier0 "x-b3-flags") as [[|a s]|]; reflexivity.
Qed.

(** ** The further properties at work *)

Lemma extract_without_headers_witness :
  exists ctx,
    B3Format.extract HeaderDict.get SeqIds.generate_trace_id SeqIds.generate_span_id
      (∅ : HeaderDict.t) (mkWorld 0 []) =
      (Returned ctx,
       mkWorld 0
         ([] ++ [CallGetter "b3"; CallGetter "x-b3-traceid";
                 CallGetter "x-b3-spanid"; CallGetter "x-b3-sampled";
                 CallGetter "x-b3-flags"])) /\
    trace.trace_id (trace.get_context ctx) = 0 /\
    trace.span_id (trace.get_context ctx) = 0 /\
    trace.sampled (trace.get_context ctx) = false.
Proof.
  apply (extract_without_headers HeaderDict.get SeqIds.generate_trace_id
           SeqIds.generate_span_id (∅ : HeaderDict.t) (mkWorld 0 [])).
  intros key [<-|[<-|[<-|[<-|[<-|[]]]]]]; reflexivity.
Defined.

Lemma extract_sampling_only_header_witness :
  first_value HeaderDict.get carrier_deny "b3" = Some "0" /\
  count_char (Py.ord "-") "0" = O /\
  exists ctx,
    B3Format.extract HeaderDict.get SeqIds.generate_trace_id SeqIds.generate_span_id
      carrier_deny (mkWorld 0 []) =
      (Returned ctx, mkWorld 0 ([] ++ [CallGetter "b3"])) /\
    trace.trace_id (trace.get_context ctx) = 0 /\
    trace.span_id (trace.get_context ctx) = 0 /\
    (trace.sampled (trace.get_context ctx) = true <->
     "0" = "1" \/ "0" = "True" \/ "0" = "true" \/ "0" = "d").
Proof.
  split; [vm_compute; reflexivity|]. split; [reflexivity|].
  apply (extract_sampling_only_header HeaderDict.get SeqIds.generate_trace_id
           SeqIds.generate_span_id carrier_deny (mkWorld 0 []) "0").
  - vm_compute; reflexivity.
  - discriminate.
  - reflexivity.
Defined.

Lemma extract_two_fields_sampled_witness :
  first_value HeaderDict.get carrier_two_fields "b3"
    = Some ("80f198ee56343ba864fe8b2a57d3eff7" ++ "-" ++ "e457b5a2e4d86bd1") /\
  exists a b ctx,
    Py.int16 "80f198ee56343ba864fe8b2a57d3eff7" = Some a /\
    Py.int16 "e457b5a2e4d86bd1" = Some b /\
    B3Format.extract HeaderDict.get SeqIds.generate_trace_id SeqIds.generate_span_id
      carrier_two_fields (mkWorld 0 []) =
      (Returned ctx, mkWorld 0 ([] ++ [CallGetter "b3"])) /\
    trace.trace_id (trace.get_context ctx) = a /\
    trace.span_id (trace.get_context ctx) = b /\
    trace.sampled (trace.get_context ctx) = true.
Proof.
  split; [vm_compute; reflexivity|].
  apply (extract_two_fields_sampled HeaderDict.get SeqIds.generate_trace_id
           SeqIds.generate_span_id carrier_two_fields (mkWorld 0 [])
           "80f198ee56343ba864fe8b2a57d3eff7" "e457b5a2e4d86bd1").
  - vm_compute; reflexivity.
  - reflexivity.
  - reflexivity.
Defined.

Lemma extract_malformed_iff_four_separators_witness :
  first_value HeaderDict.get carrier_malformed "b3" = Some "a-b-c-d-e" /\
  (4 <= count_char (Py.ord "-") "a-b-c-d-e")%nat /\
  ((4 <= count_char (Py.ord "-") "a-b-c-d-e")%nat ->
   B3Format.extract HeaderDict.get SeqIds.generate_trace_id SeqIds.generate_span_id
     carrier_malformed (mkWorld 0 []) =
     (Returned (trace.set_span_in_context trace.INVALID_SPAN),
      mkWorld 0 ([] ++ [CallGetter "b3"]))) /\
  ((count_char (Py.ord "-") "a-b-c-d-e" < 4)%nat ->
   exists hs, B3Format.read_headers HeaderDict.get carrier_malformed (mkWorld 0 []) =
                (Returned (Some hs), mkWorld 0 ([] ++ [CallGetter "b3"]))).
Proof.
  split; [vm_compute; reflexivity|]. split; [simpl; lia|].
  apply (extract_malformed_iff_four_separators HeaderDict.get SeqIds.generate_trace_id
           SeqIds.generate_span_id carrier_malformed (mkWorld 0 []) "a-b-c-d-e").
  - vm_compute; reflexivity.
  - discriminate.
Defined.

Lemma extract_ignores_parent_field_witness :
  B3Format.extract HeaderDict.get SeqIds.generate_trace_id SeqIds.generate_span_id
    carrier_four_fields (mkWorld 0 []) =
  B3Format.extract HeaderDict.get SeqIds.generate_trace_id SeqIds.generate_span_id
    carrier_three_fields (mkWorld 0 []).
Proof.
  apply (extract_ignores_parent_field HeaderDict.get HeaderDict.get
           SeqIds.generate_trace_id SeqIds.generate_span_id
           carrier_four_fields carrier_three_fields (mkWorld 0 [])
           "80f198ee56343ba864fe8b2a57d3eff7" "e457b5a2e4d86bd1" "1" "05e3ac9a4f6e3b90");
    vm_compute; reflexivity.
Defined.

Lemma extract_first_values_only_witness :
  B3Format.extract HeaderDict.get SeqIds.generate_trace_id SeqIds.generate_span_id
    carrier_repeated (mkWorld 0 []) =
  B3Format.extract HeaderDict.get SeqIds.generate_trace_id SeqIds.generate_span_id
    carrier_first_values (mkWorld 0 []).
Proof.
  apply (extract_first_values_only HeaderDict.get HeaderDict.get
           SeqIds.generate_trace_id SeqIds.generate_span_id
           carrier_repeated carrier_first_values (mkWorld 0 [])).
  intros key [<-|[<-|[<-|[<-|[<-|[]]]]]]; vm_compute; reflexivity.
Defined.

Lemma inject_leaves_other_headers_witness :
  trace.parent span_without_parent = None /\
  exists carrier' w',
    B3Format.inject HeaderDict.set carrier_stale_flags span_without_parent (mkWorld 0 [])
      = (Returned carrier', w') /\
    carrier' !! "x-b3-parentspanid" = carrier_stale_flags !! "x-b3-parentspanid".
Proof.
  split; [reflexivity|].
  apply (inject_leaves_other_headers carrier_stale_flags span_without_parent
           (mkWorld 0 []) "x-b3-parentspanid");
    [discriminate | discriminate | discriminate | right; reflexivity].
Defined.

Lemma inject_extract_round_trip_into_witness :
  Py.truthy (first_value HeaderDict.get carrier_stale_flags "b3") = false /\
  exists carrier w1 ctx w2,
    B3Format.inject HeaderDict.set carrier_stale_flags
      (trace.set_span_in_context span_with_parent) (mkWorld 0 [])
      = (Returned carrier, w1) /\
    B3Format.extract HeaderDict.get SeqIds.generate_trace_id SeqIds.generate_span_id
      carrier w1 = (Returned ctx, w2) /\
    trace.trace_id (trace.get_context ctx)
      = trace.trace_id (trace.get_context span_with_parent) /\
    trace.span_id (trace.get_context ctx)
      = trace.span_id (trace.get_context span_with_parent) /\
    trace.sampled (trace.get_context ctx) =
      trace.sampled (trace.get_context span_with_parent)
      || B3Format.flags_set (first_value HeaderDict.get carrier_stale_flags "x-b3-flags").
Proof.
  split; [vm_compute; reflexivity|].
  apply (inject_extract_round_trip_into SeqIds.generate_trace_id SeqIds.generate_span_id
           carrier_stale_flags span_with_parent (mkWorld 0 []));
    [vm_compute; reflexivity | split; reflexivity | split; reflexivity].
Defined.
